(** * Jagriti consumer-court API: a shallow embedding of the request pipeline

    The development follows the Python sources

    - [app/config.py]                  (module [Settings])
    - [app/models/jagriti.py], [app/models/responses.py]  (the records)
    - [app/models/requests.py]         (module [Requests])
    - [app/services/jagriti_client.py] ([_make_request] and the resolvers)
    - [app/services/case_service.py]   ([search_cases_by_type], the transform)
    - [app/api/cases.py]               ([endpoint], [serve])
    - [app/api/utilities.py]           (module [Utilities])

    Python [str] values are Stdlib strings, a text being its UTF-8 bytes.
    [str.upper] and [str.lower] are Unicode mappings: where the resolvers
    fold directory names they are taken from the interface [Wire];
    [PyStr.upper] and [PyStr.lower] are their restriction to ASCII text (the
    26 letters mapped, every other character left alone), used on the ASCII
    literals of the code, on exception messages and in the request
    validator, whose model therefore covers ASCII state names.
    Python [int] is [Z], [Optional[T]] is
    [option T], a raised exception is the [Raise] outcome of the pipeline
    monad, and the network is an explicit oracle together with a log of the
    calls and sleeps the code performs. *)

From Stdlib Require Import ZArith List Bool Ascii String Lia DecimalString.
From Stdlib Require Import Sorted Permutation.
Import ListNotations.
Local Open Scope string_scope.
Local Open Scope Z_scope.

(** ** Python string primitives *)

Module PyStr.

Definition is_lower_letter (c : ascii) : bool :=
  ((97 <=? nat_of_ascii c) && (nat_of_ascii c <=? 122))%nat.

Definition is_upper_letter (c : ascii) : bool :=
  ((65 <=? nat_of_ascii c) && (nat_of_ascii c <=? 90))%nat.

Definition is_digit (c : ascii) : bool :=
  ((48 <=? nat_of_ascii c) && (nat_of_ascii c <=? 57))%nat.

Definition upper_char (c : ascii) : ascii :=
  if is_lower_letter c then ascii_of_nat (nat_of_ascii c - 32) else c.

Definition lower_char (c : ascii) : ascii :=
  if is_upper_letter c then ascii_of_nat (nat_of_ascii c + 32) else c.

Fixpoint map_chars (f : ascii -> ascii) (s : string) : string :=
  match s with
  | EmptyString => EmptyString
  | String c r => String (f c) (map_chars f r)
  end.

(** [s.upper()] and [s.lower()] *)
Definition upper : string -> string := map_chars upper_char.
Definition lower : string -> string := map_chars lower_char.

(** [needle in hay] on strings *)
Fixpoint contains (needle hay : string) : bool :=
  prefix needle hay ||
  match hay with
  | EmptyString => false
  | String _ r => contains needle r
  end.

(** [str(n)] for an [int] *)
Definition of_Z (z : Z) : string := NilZero.string_of_int (Z.to_int z).

(** [str(n)] for a non-negative count *)
Definition of_nat (n : nat) : string := of_Z (Z.of_nat n).

(** truthiness of a [str] *)
Definition truthy (s : string) : bool :=
  match s with EmptyString => false | _ => true end.

(** truthiness of an [Optional[str]]: [None] and [""] are falsy *)
Definition opt_truthy (o : option string) : bool :=
  match o with Some s => truthy s | None => false end.

(** [a or b] where [a : Optional[str]] and [b : str] *)
Definition or_default (a : option string) (b : string) : string :=
  match a with
  | Some s => if truthy s then s else b
  | None => b
  end.

(** every character is in the ASCII range *)
Fixpoint is_ascii (s : string) : bool :=
  match s with
  | EmptyString => true
  | String c r => (nat_of_ascii c <? 128)%nat && is_ascii r
  end.

(** the double-quote character, for JSON text *)
Definition dquote : string := String (ascii_of_nat 34) EmptyString.

End PyStr.

(** A Python dict literal with heterogeneous values, in insertion order. *)
Inductive PyVal : Type :=
| PStr (s : string)
| PInt (z : Z)
| PNone.

Definition PyDict := list (string * PyVal).

Fixpoint dict_get {V : Type} (k : string) (d : list (string * V)) : option V :=
  match d with
  | [] => None
  | (k', v) :: r => if String.eqb k k' then Some v else dict_get k r
  end.

(** ** app/config.py *)

Module Settings.

Definition JAGRITI_BASE_URL : string := "https://e-jagriti.gov.in".
Definition REQUEST_TIMEOUT : Z := 30.
Definition MAX_RETRIES : nat := 3.
Definition DEFAULT_FROM_DATE : string := "2025-01-01".
Definition DEFAULT_TO_DATE : string := "2025-09-03".
Definition DATE_REQUEST_TYPE : Z := 1.
Definition ORDER_TYPE : Z := 1.
Definition JUDGE_ID : string := "".

Definition ENDPOINT_states_commissions : string :=
  JAGRITI_BASE_URL ++ "/services/report/report/getStateCommissionAndCircuitBench".
Definition ENDPOINT_district_commissions : string :=
  JAGRITI_BASE_URL ++ "/services/report/report/getDistrictCommissionByCommissionId".
Definition ENDPOINT_case_search : string :=
  JAGRITI_BASE_URL ++ "/services/case/caseFilingService/v2/getCaseDetailsBySearchType".

Definition SEARCH_TYPES : list (string * Z) :=
  [ ("case_number", 1); ("complainant", 2); ("respondent", 3);
    ("complainant_advocate", 4); ("respondent_advocate", 5);
    ("industry_type", 6); ("judge", 7) ].

End Settings.

(** ** app/models *)

(** [JagritiStateCommission] and [JagritiDistrictCommission] have the same
    four fields. *)
Record JagritiCommission : Type := mkCommission {
  commissionId : Z;
  commissionNameEn : string;
  circuitAdditionBenchStatus : bool;
  activeStatus : bool
}.

(** [JagritiStatesResponse] and [JagritiDistrictCommissionsResponse] *)
Record JagritiDirectoryResponse : Type := mkDirectoryResponse {
  dir_data : list JagritiCommission;
  dir_message : string;
  dir_error : string;
  dir_status : Z
}.

(** [JagritiCaseDetail]: the fields the service reads, plus the remaining
    string-valued ones. *)
Record JagritiCaseDetail : Type := mkCaseDetail {
  caseNumber : string;
  complainantName : string;
  complainantAdvocateName : option string;
  respondentName : string;
  respondentAdvocateName : option string;
  caseFilingDate : string;
  orderDocumentPath : option string;
  orderDate : option string;
  dateOfDisposal : option string;
  caseStageName : string;
  dailyOrderStatus : bool
}.

Record JagritiCaseSearchResponse : Type := mkCaseSearchResponse {
  cs_message : string;
  cs_status : Z;
  cs_data : list JagritiCaseDetail;
  cs_error : string
}.

(** [JagritiCaseSearchRequest], the upstream search payload *)
Record JagritiCaseSearchRequest : Type := mkPayload {
  p_commissionId : Z;
  dateRequestType : Z;
  fromDate : string;
  toDate : string;
  judgeId : string;
  orderType : Z;
  serchType : Z;
  serchTypeValue : string
}.

(** [CaseSearchRequest] after validation *)
Record CaseSearchRequest : Type := mkRequest {
  state : string;
  commission : string;
  search_value : string;
  from_date : option string;
  to_date : option string
}.

(** [CaseResponse] *)
Record CaseResponse : Type := mkCaseResponse {
  case_number : string;
  case_stage : string;
  filing_date : string;
  complainant : string;
  complainant_advocate : option string;
  respondent : string;
  respondent_advocate : option string;
  document_link : option string
}.

(** [CaseSearchResponse] *)
Record CaseSearchResponse : Type := mkSearchResponse {
  cases : list CaseResponse;
  total_count : Z;
  search_criteria : PyDict
}.

(** ** app/models/requests.py: input validation *)

Module Requests.

(** *** [datetime.strptime(v, '%Y-%m-%d')]

    CPython compiles the format into the regular expression
    [(?P<Y>\d\d\d\d)-(?P<m>1[0-2]|0[1-9]|[1-9])-(?P<d>3[0-1]|[1-2]\d|0[1-9]|[1-9]| [1-9])],
    matches it at the start of the text with the usual leftmost-alternative
    backtracking, raises [ValueError] when there is no match or when text
    remains after the match, and raises [ValueError] again when the three
    numbers are not a calendar date.  The model is of [strptime] on ASCII
    text, where [\d] is [0-9]; on other text CPython also reads the decimal
    digits of other scripts. *)

Definition digit_val (c : ascii) : Z := Z.of_nat (nat_of_ascii c) - 48.

Definition char_in (lo hi : nat) (c : ascii) : bool :=
  ((lo <=? nat_of_ascii c) && (nat_of_ascii c <=? hi))%nat.

(** One alternative of a group: the number read and the text left over. *)
Definition Alt := string -> option (Z * string).

(** two characters, the first in [lo1..hi1] and the second in [lo2..hi2] *)
Definition two_chars (lo1 hi1 lo2 hi2 : nat) : Alt := fun s =>
  match s with
  | String a (String b r) =>
      if char_in lo1 hi1 a && char_in lo2 hi2 b
      then Some (10 * digit_val a + digit_val b, r) else None
  | _ => None
  end.

(** one character in ['1'..'9'] *)
Definition one_nonzero : Alt := fun s =>
  match s with
  | String a r => if char_in 49 57 a then Some (digit_val a, r) else None
  | _ => None
  end.

(** a space followed by one character in ['1'..'9'] *)
Definition space_nonzero : Alt := fun s =>
  match s with
  | String a (String b r) =>
      if Ascii.eqb a " "%char && char_in 49 57 b
      then Some (digit_val b, r) else None
  | _ => None
  end.

(** [\d\d\d\d] *)
Definition group_Y : Alt := fun s =>
  match s with
  | String a (String b (String c (String d r))) =>
      if PyStr.is_digit a && PyStr.is_digit b && PyStr.is_digit c && PyStr.is_digit d
      then Some (1000 * digit_val a + 100 * digit_val b + 10 * digit_val c + digit_val d, r)
      else None
  | _ => None
  end.

(** [1[0-2]|0[1-9]|[1-9]] *)
Definition group_m : list Alt :=
  [ two_chars 49 49 48 50; two_chars 48 48 49 57; one_nonzero ].

(** [3[0-1]|[1-2]\d|0[1-9]|[1-9]| [1-9]] *)
Definition group_d : list Alt :=
  [ two_chars 51 51 48 49; two_chars 49 50 48 57; two_chars 48 48 49 57;
    one_nonzero; space_nonzero ].

(** Try the alternatives from the left; an alternative whose continuation
    fails is abandoned for the next one. *)
Fixpoint try_alts {R : Type} (alts : list Alt) (k : Z -> string -> option R)
    (s : string) : option R :=
  match alts with
  | [] => None
  | a :: rest =>
      match a s with
      | Some (v, r) =>
          match k v r with
          | Some x => Some x
          | None => try_alts rest k s
          end
      | None => try_alts rest k s
      end
  end.

Definition dash (s : string) : option string :=
  match s with
  | String c r => if Ascii.eqb c "-"%char then Some r else None
  | EmptyString => None
  end.

(** The regular-expression match: year, month, day and the unconverted rest. *)
Definition format_match (s : string) : option (Z * Z * Z * string) :=
  match group_Y s with
  | Some (y, r1) =>
      match dash r1 with
      | Some r2 =>
          try_alts group_m (fun m r3 =>
            match dash r3 with
            | Some r4 => try_alts group_d (fun d r5 => Some (y, m, d, r5)) r4
            | None => None
            end) r2
      | None => None
      end
  | None => None
  end.

Definition is_leap (y : Z) : bool :=
  ((y mod 4 =? 0) && negb (y mod 100 =? 0)) || (y mod 400 =? 0).

Definition days_in_month (y m : Z) : Z :=
  if m =? 2 then (if is_leap y then 29 else 28)
  else if (m =? 4) || (m =? 6) || (m =? 9) || (m =? 11) then 30
  else 31.

(** the range checks of the [date] constructor *)
Definition valid_date (y m d : Z) : bool :=
  (1 <=? y) && (y <=? 9999) && (1 <=? m) && (m <=? 12) &&
  (1 <=? d) && (d <=? days_in_month y m).

(** [None] stands for the [ValueError] *)
Definition strptime (s : string) : option (Z * Z * Z) :=
  match format_match s with
  | Some (y, m, d, rest) =>
      match rest with
      | EmptyString => if valid_date y m d then Some (y, m, d) else None
      | _ => None
      end
  | None => None
  end.

(** [a < b] on the parsed dates (the time part is always midnight) *)
Definition date_ltb (a b : Z * Z * Z) : bool :=
  let '(ya, ma, da) := a in
  let '(yb, mb, db) := b in
  (ya <? yb) || ((ya =? yb) && ((ma <? mb) || ((ma =? mb) && (da <? db)))).

(** The request body as it arrives: the five fields, not yet validated. *)
Record RawRequest : Type := mkRaw {
  raw_state : string;
  raw_commission : string;
  raw_search_value : string;
  raw_from_date : option string;
  raw_to_date : option string
}.

(** [min_length=1] *)
Definition min_length_1 (field : string) (v : string) : string + string :=
  if PyStr.truthy v then inr v
  else inl (field ++ ": ensure this value has at least 1 characters").

(** [@validator('state')], on ASCII state names *)
Definition state_must_be_uppercase (v : string) : string := PyStr.upper v.

(** [@validator('from_date', 'to_date')] *)
Definition validate_date_format (v : option string) : string + option string :=
  match v with
  | Some s =>
      match strptime s with
      | Some _ => inr v
      | None => inl "Date must be in YYYY-MM-DD format"
      end
  | None => inr v
  end.

(** [@validator('to_date')]; [values_from_date] is [values.get('from_date')],
    which is [None] also when [from_date] failed its own validation. *)
Definition to_date_must_be_after_from_date (v : option string)
    (values_from_date : option string) : string + option string :=
  match v, values_from_date with
  | Some t, Some f =>
      match strptime f, strptime t with
      | Some fd, Some td =>
          if date_ltb td fd then inl "to_date must be after from_date" else inr v
      | _, _ => inl "time data does not match format '%Y-%m-%d'"
      end
  | _, _ => inr v
  end.

Definition errors_of {A : Type} (r : string + A) : list string :=
  match r with inl e => [e] | inr _ => [] end.

(** Building a [CaseSearchRequest] (or one of its seven subclasses, which
    inherit every validator): fields are validated in declaration order and
    the construction fails with the collected errors when any field fails. *)
Definition validate (raw : RawRequest) : list string + CaseSearchRequest :=
  let r_state := min_length_1 "state" (raw_state raw) in
  let r_commission := min_length_1 "commission" (raw_commission raw) in
  let r_search := min_length_1 "search_value" (raw_search_value raw) in
  let r_from := validate_date_format (raw_from_date raw) in
  let values_from_date :=
    match r_from with inr v => v | inl _ => None end in
  let r_to :=
    match validate_date_format (raw_to_date raw) with
    | inr v => to_date_must_be_after_from_date v values_from_date
    | inl e => inl e
    end in
  match r_state, r_commission, r_search, r_from, r_to with
  | inr s, inr c, inr v, inr f, inr t =>
      inr (mkRequest (state_must_be_uppercase s) c v f t)
  | _, _, _, _, _ =>
      inl (errors_of r_state ++ errors_of r_commission ++ errors_of r_search
           ++ errors_of r_from ++ errors_of r_to)%list
  end.

End Requests.

(** ** The wire format

    The parsed JSON values of [response.json()] and the pydantic constructors
    [JagritiStatesResponse], [JagritiDistrictCommissionsResponse] and
    [JagritiCaseSearchResponse], applied to the unpacked response dict, belong
    to httpx and pydantic; they are an interface of the development.  A constructor receives what
    [_make_request] returned ([None] when the retry loop ran zero times) and
    answers with the model or with the text of the exception it raises.
    [str_upper] and [str_lower] are Python's [str.upper] and [str.lower] on
    arbitrary text; nothing is assumed of them. *)

Class Wire : Type := {
  str_upper : string -> string;
  str_lower : string -> string;
  Json : Type;
  parse_states : option Json -> string + JagritiDirectoryResponse;
  parse_districts : option Json -> string + JagritiDirectoryResponse;
  parse_cases : option Json -> string + JagritiCaseSearchResponse
}.

Section Pipeline.

Context {W : Wire}.

(** *** Exceptions *)

Inductive PyExn : Type :=
| JagritiAPIException (message : string) (status_code : option Z)
    (response_data : option Json)
| CaseServiceException (message : string)
| HTTPException (status_code : Z) (detail : string)
| RequestValidationError (errors : list string)
| OtherException (message : string).

(** [str(e)] *)
Definition str_exn (e : PyExn) : string :=
  match e with
  | JagritiAPIException m _ _ => m
  | CaseServiceException m => m
  | HTTPException c d => PyStr.of_Z c ++ ": " ++ d
  | RequestValidationError errs => String.concat "; " errs
  | OtherException m => m
  end.

Inductive PyResult (A : Type) : Type :=
| Return (a : A)
| Raise (e : PyExn).

Arguments Return {A} a.
Arguments Raise {A} e.

(** *** The network *)

(** What the process does that the outside can see, oldest first.  The fixed
    browser-like header set sent with every call is left out of the events. *)
Inductive Event : Type :=
| EvGet (url : string) (params : option Z)
| EvPost (url : string) (data : option JagritiCaseSearchRequest)
| EvSleep (seconds : Z).

Record HttpResponse : Type := mkHttpResponse {
  resp_status : Z;
  resp_text : string;
  (** [response.json()]: the text of the decoding error, or the value *)
  resp_json : string + Json
}.

(** What one [client.get] / [client.post] does. *)
Inductive AttemptOutcome : Type :=
| TimeoutException (message : string)
| RequestError (message : string)
| Responded (r : HttpResponse)
| OtherFailure (message : string).

(** The upstream answers a call knowing everything that happened so far; the
    last event of the history is the call being answered. *)
Definition Upstream : Type := list Event -> AttemptOutcome.

Variable upstream : Upstream.

(** *** The pipeline monad: the event log threaded through, with exceptions *)

Definition M (A : Type) : Type := list Event -> PyResult A * list Event.

Definition ret {A : Type} (a : A) : M A := fun log => (Return a, log).

Definition raise {A : Type} (e : PyExn) : M A := fun log => (Raise e, log).

Definition bind {A B : Type} (c : M A) (k : A -> M B) : M B := fun log =>
  match c log with
  | (Return a, log') => k a log'
  | (Raise e, log') => (Raise e, log')
  end.

(** [try: c  except Exception as e: h e] *)
Definition try_except {A : Type} (c : M A) (h : PyExn -> M A) : M A := fun log =>
  match c log with
  | (Return a, log') => (Return a, log')
  | (Raise e, log') => h e log'
  end.

Definition emit (ev : Event) : M unit := fun log => (Return tt, (log ++ [ev])%list).

(** perform the call and learn its outcome *)
Definition perform (ev : Event) : M AttemptOutcome := fun log =>
  let log' := (log ++ [ev])%list in (Return (upstream log'), log').

(** [await asyncio.sleep(seconds)] *)
Definition sleep (seconds : Z) : M unit := emit (EvSleep seconds).

Notation "x <- c ;; k" := (bind c (fun x => k))
  (at level 61, c at next level, right associativity).
Notation "c ;;; k" := (bind c (fun _ => k))
  (at level 61, right associativity).

(** ** app/services/jagriti_client.py *)

Record JagritiAPIClient : Type := mkClient {
  base_url : string;
  timeout : Z;
  max_retries : nat
}.

(** the global client instance *)
Definition jagriti_client : JagritiAPIClient :=
  mkClient Settings.JAGRITI_BASE_URL Settings.REQUEST_TIMEOUT Settings.MAX_RETRIES.

(** the arguments of [_make_request] *)
Record Request : Type := mkReq {
  method : string;
  url : string;
  data : option JagritiCaseSearchRequest;
  params : option Z
}.

(** [response.is_success], the test behind [raise_for_status] *)
Definition is_success (r : HttpResponse) : bool :=
  (200 <=? resp_status r) && (resp_status r <=? 299).

(** the call made in the body of the loop *)
Definition call_event (req : Request) : Event :=
  if String.eqb (PyStr.upper (method req)) "GET"
  then EvGet (url req) (params req)
  else EvPost (url req) (data req).

(** The body of [for attempt in range(self.max_retries)], over the attempts
    still to run.  Falling out of the loop returns [None]. *)
Fixpoint make_request_loop (self : JagritiAPIClient) (req : Request)
    (attempts : list nat) : M (option Json) :=
  match attempts with
  | [] => ret None
  | attempt :: rest =>
      o <- perform (call_event req) ;;
      match o with
      | Responded r =>
          if is_success r then
            match resp_json r with
            | inr response_data => ret (Some response_data)
            | inl m => raise (JagritiAPIException ("Unexpected error: " ++ m) None None)
            end
          else
            (* except httpx.HTTPStatusError *)
            let msg := "HTTP " ++ PyStr.of_Z (resp_status r) ++ " error: " ++ resp_text r in
            if PyStr.truthy (resp_text r) then
              match resp_json r with
              | inr j => raise (JagritiAPIException msg (Some (resp_status r)) (Some j))
              | inl m => raise (OtherException m)
              end
            else raise (JagritiAPIException msg (Some (resp_status r)) None)
      | TimeoutException _ =>
          if (Z.of_nat attempt =? Z.of_nat (max_retries self) - 1) then
            raise (JagritiAPIException
                     ("Request timed out after " ++ PyStr.of_nat (max_retries self)
                      ++ " attempts") None None)
          else sleep (2 ^ Z.of_nat attempt) ;;; make_request_loop self req rest
      | RequestError m =>
          if (Z.of_nat attempt =? Z.of_nat (max_retries self) - 1) then
            raise (JagritiAPIException
                     ("Request failed after " ++ PyStr.of_nat (max_retries self)
                      ++ " attempts: " ++ m) None None)
          else sleep (2 ^ Z.of_nat attempt) ;;; make_request_loop self req rest
      | OtherFailure m =>
          raise (JagritiAPIException ("Unexpected error: " ++ m) None None)
      end
  end.

Definition _make_request (self : JagritiAPIClient) (req : Request) : M (option Json) :=
  make_request_loop self req (seq 0 (max_retries self)).

(** turn the answer of a pydantic constructor into a return or a raise *)
Definition construct {A : Type} (r : string + A) : M A :=
  match r with
  | inr a => ret a
  | inl m => raise (OtherException m)
  end.

Definition get_states_and_commissions (self : JagritiAPIClient)
    : M JagritiDirectoryResponse :=
  try_except
    (response_data <- _make_request self
        (mkReq "GET" Settings.ENDPOINT_states_commissions None None) ;;
     construct (parse_states response_data))
    (fun e => raise (JagritiAPIException
       ("Failed to fetch states and commissions: " ++ str_exn e) None None)).

Definition get_district_commissions (self : JagritiAPIClient)
    (state_commission_id : Z) : M JagritiDirectoryResponse :=
  try_except
    (response_data <- _make_request self
        (mkReq "GET" Settings.ENDPOINT_district_commissions None
               (Some state_commission_id)) ;;
     construct (parse_districts response_data))
    (fun e => raise (JagritiAPIException
       ("Failed to fetch district commissions: " ++ str_exn e) None None)).

Definition search_cases (self : JagritiAPIClient)
    (search_request : JagritiCaseSearchRequest) : M JagritiCaseSearchResponse :=
  try_except
    (response_data <- _make_request self
        (mkReq "POST" Settings.ENDPOINT_case_search (Some search_request) None) ;;
     construct (parse_cases response_data))
    (fun e => raise (JagritiAPIException
       ("Failed to search cases: " ++ str_exn e) None None)).

(** the [for state in states_response.data] loop of
    [find_state_commission_id] *)
Fixpoint scan_states (state_name_upper : string) (l : list JagritiCommission)
    : option Z :=
  match l with
  | [] => None
  | st :: rest =>
      if String.eqb (str_upper (commissionNameEn st)) state_name_upper
      then Some (commissionId st)
      else scan_states state_name_upper rest
  end.

Definition find_state_commission_id (self : JagritiAPIClient)
    (state_name : string) : M (option Z) :=
  try_except
    (states_response <- get_states_and_commissions self ;;
     let state_name_upper := str_upper state_name in
     ret (scan_states state_name_upper (dir_data states_response)))
    (fun e => raise (JagritiAPIException
       ("Failed to find state commission ID: " ++ str_exn e) None None)).

(** the [for district in districts_response.data] loop of
    [find_district_commission_id] *)
Fixpoint scan_districts (district_name : string) (l : list JagritiCommission)
    : option Z :=
  match l with
  | [] => None
  | district :: rest =>
      if String.eqb (str_lower (commissionNameEn district))
                    (str_lower district_name)
      then Some (commissionId district)
      else scan_districts district_name rest
  end.

Definition find_district_commission_id (self : JagritiAPIClient)
    (state_commission_id : Z) (district_name : string) : M (option Z) :=
  try_except
    (districts_response <- get_district_commissions self state_commission_id ;;
     ret (scan_districts district_name (dir_data districts_response)))
    (fun e => raise (JagritiAPIException
       ("Failed to find district commission ID: " ++ str_exn e) None None)).

(** ** app/services/case_service.py *)

(** [_transform_case_detail]; the constructor of [CaseResponse] receives
    values of the declared types, so the surrounding [try] never fires. *)
Definition _transform_case_detail (jagriti_case : JagritiCaseDetail) : CaseResponse :=
  let document_link :=
    if PyStr.opt_truthy (orderDocumentPath jagriti_case)
    then match orderDocumentPath jagriti_case with
         | Some path => Some (Settings.JAGRITI_BASE_URL ++ path)
         | None => None
         end
    else None in
  mkCaseResponse
    (caseNumber jagriti_case)
    (caseStageName jagriti_case)
    (caseFilingDate jagriti_case)
    (complainantName jagriti_case)
    (complainantAdvocateName jagriti_case)
    (respondentName jagriti_case)
    (respondentAdvocateName jagriti_case)
    document_link.

(** truthiness of an [Optional[int]]: [None] and [0] are falsy *)
Definition id_truthy (o : option Z) : bool :=
  match o with Some z => negb (z =? 0) | None => false end.

(** the [JagritiCaseSearchRequest(...)] built by [search_cases_by_type] *)
Definition jagriti_request_of (request : CaseSearchRequest) (search_type : Z)
    (district_commission_id : Z) (from_date to_date : string)
    : JagritiCaseSearchRequest :=
  mkPayload district_commission_id Settings.DATE_REQUEST_TYPE from_date to_date
            Settings.JUDGE_ID Settings.ORDER_TYPE search_type (search_value request).

Definition search_cases_body (request : CaseSearchRequest) (search_type : Z)
    : M CaseSearchResponse :=
  state_commission_id <- find_state_commission_id jagriti_client (state request) ;;
  match state_commission_id with
  | Some sid =>
    if negb (id_truthy state_commission_id) then
      raise (CaseServiceException ("State '" ++ state request ++ "' not found"))
    else
      district_commission_id <-
        find_district_commission_id jagriti_client sid (commission request) ;;
      match district_commission_id with
      | Some did =>
        if negb (id_truthy district_commission_id) then
          raise (CaseServiceException
                   ("Commission '" ++ commission request ++ "' not found in state '"
                    ++ state request ++ "'"))
        else
          let from_date := PyStr.or_default (from_date request) Settings.DEFAULT_FROM_DATE in
          let to_date := PyStr.or_default (to_date request) Settings.DEFAULT_TO_DATE in
          let jagriti_request :=
            jagriti_request_of request search_type did from_date to_date in
          jagriti_response <- search_cases jagriti_client jagriti_request ;;
          let cases := map _transform_case_detail (cs_data jagriti_response) in
          let search_criteria :=
            [ ("state", PStr (state request));
              ("commission", PStr (commission request));
              ("search_value", PStr (search_value request));
              ("search_type", PInt search_type);
              ("from_date", PStr from_date);
              ("to_date", PStr to_date);
              ("state_commission_id", PInt sid);
              ("district_commission_id", PInt did) ] in
          ret (mkSearchResponse cases (Z.of_nat (List.length cases)) search_criteria)
      | None =>
          raise (CaseServiceException
                   ("Commission '" ++ commission request ++ "' not found in state '"
                    ++ state request ++ "'"))
      end
  | None =>
      raise (CaseServiceException ("State '" ++ state request ++ "' not found"))
  end.

(** [search_cases_by_type]: the body inside its two handlers.  The
    [CaseServiceException]s raised in the body are caught by the second
    handler like any other exception. *)
Definition search_cases_by_type (request : CaseSearchRequest) (search_type : Z)
    : M CaseSearchResponse :=
  try_except (search_cases_body request search_type)
    (fun e =>
       match e with
       | JagritiAPIException _ _ _ =>
           raise (CaseServiceException ("External API error: " ++ str_exn e))
       | _ =>
           raise (CaseServiceException ("Case search failed: " ++ str_exn e))
       end).

(** [settings.SEARCH_TYPES[key]] *)
Definition SEARCH_TYPES_item (key : string) : M Z :=
  match dict_get key Settings.SEARCH_TYPES with
  | Some v => ret v
  | None => raise (OtherException ("'" ++ key ++ "'"))
  end.

Definition search_cases_by_case_number (request : CaseSearchRequest) :=
  search_type <- SEARCH_TYPES_item "case_number" ;;
  search_cases_by_type request search_type.

Definition search_cases_by_complainant (request : CaseSearchRequest) :=
  search_type <- SEARCH_TYPES_item "complainant" ;;
  search_cases_by_type request search_type.

Definition search_cases_by_respondent (request : CaseSearchRequest) :=
  search_type <- SEARCH_TYPES_item "respondent" ;;
  search_cases_by_type request search_type.

Definition search_cases_by_complainant_advocate (request : CaseSearchRequest) :=
  search_type <- SEARCH_TYPES_item "complainant_advocate" ;;
  search_cases_by_type request search_type.

Definition search_cases_by_respondent_advocate (request : CaseSearchRequest) :=
  search_type <- SEARCH_TYPES_item "respondent_advocate" ;;
  search_cases_by_type request search_type.

Definition search_cases_by_industry_type (request : CaseSearchRequest) :=
  search_type <- SEARCH_TYPES_item "industry_type" ;;
  search_cases_by_type request search_type.

Definition search_cases_by_judge (request : CaseSearchRequest) :=
  search_type <- SEARCH_TYPES_item "judge" ;;
  search_cases_by_type request search_type.

(** The seven search kinds, and the service method behind each. *)
Inductive SearchKind : Type :=
| CaseNumber | Complainant | Respondent | ComplainantAdvocate
| RespondentAdvocate | IndustryType | Judge.

Definition service_method (k : SearchKind) : CaseSearchRequest -> M CaseSearchResponse :=
  match k with
  | CaseNumber => search_cases_by_case_number
  | Complainant => search_cases_by_complainant
  | Respondent => search_cases_by_respondent
  | ComplainantAdvocate => search_cases_by_complainant_advocate
  | RespondentAdvocate => search_cases_by_respondent_advocate
  | IndustryType => search_cases_by_industry_type
  | Judge => search_cases_by_judge
  end.

(** ** app/api/cases.py *)

(** The seven endpoints have one body: call the service method and turn what
    it raises into an [HTTPException]. *)
Definition endpoint (k : SearchKind) (request : CaseSearchRequest)
    : M CaseSearchResponse :=
  try_except (service_method k request)
    (fun e =>
       match e with
       | CaseServiceException _ =>
           if PyStr.contains "not found" (PyStr.lower (str_exn e))
           then raise (HTTPException 404 (str_exn e))
           else raise (HTTPException 500 (str_exn e))
       | _ => raise (HTTPException 500 ("Internal server error: " ++ str_exn e))
       end).

(** The framework builds the request model from the body before it calls the
    endpoint; a body that fails validation never reaches it. *)
Definition serve (k : SearchKind) (raw : Requests.RawRequest)
    : M CaseSearchResponse :=
  match Requests.validate raw with
  | inr request => endpoint k request
  | inl errors => raise (RequestValidationError errors)
  end.

End Pipeline.

Arguments Return {W A} a.
Arguments Raise {W A} e.

(** ** app/services/jagriti_client.py: the reverse lookup *)

(** the [for state in states_response.data] loop of [get_state_name_by_id] *)
Fixpoint scan_name_by_id (state_commission_id : Z) (l : list JagritiCommission)
    : option string :=
  match l with
  | [] => None
  | st :: rest =>
      if commissionId st =? state_commission_id
      then Some (commissionNameEn st)
      else scan_name_by_id state_commission_id rest
  end.

Section ReverseLookup.

Context {W : Wire}.
Variable upstream : Upstream.

Definition get_state_name_by_id (self : JagritiAPIClient) (state_commission_id : Z)
    : M (option string) :=
  try_except
    (bind (get_states_and_commissions upstream self) (fun states_response =>
       ret (scan_name_by_id state_commission_id (dir_data states_response))))
    (fun e => raise (JagritiAPIException
       ("Failed to find state name: " ++ str_exn e) None None)).

End ReverseLookup.

(** ** app/models/responses.py: the models of the directory endpoints *)

Module StateCommission.
Record t : Type := mk {
  commission_id : Z;
  name : string;
  active : bool;
  is_circuit_bench : bool
}.
End StateCommission.

Module DistrictCommission.
Record t : Type := mk {
  commission_id : Z;
  name : string;
  active : bool
}.
End DistrictCommission.

Module StatesResponse.
Record t : Type := mk {
  states : list StateCommission.t;
  total_count : Z
}.
End StatesResponse.

Module DistrictCommissionsResponse.
Record t : Type := mk {
  commissions : list DistrictCommission.t;
  state_id : Z;
  state_name : string;
  total_count : Z
}.
End DistrictCommissionsResponse.

(** ** [list.sort(key=...)] with string keys

    [list.sort] is stable and compares keys with [<] only.  The insertion
    sort below puts each element in front of the first element of the sorted
    tail whose key is not smaller, which yields that stable order; strings
    compare lexicographically by character code. *)

Fixpoint insert_by {A : Type} (key : A -> string) (x : A) (l : list A) : list A :=
  match l with
  | [] => [x]
  | y :: r =>
      if String.ltb (key y) (key x) then y :: insert_by key x r
      else x :: y :: r
  end.

Fixpoint sort_by {A : Type} (key : A -> string) (l : list A) : list A :=
  match l with
  | [] => []
  | x :: r => insert_by key x (sort_by key r)
  end.

(** ** app/api/utilities.py *)

Module Utilities.

(** the filtering loop of [get_states] *)
Fixpoint collect_states (l : list JagritiCommission) : list StateCommission.t :=
  match l with
  | [] => []
  | state_data :: rest =>
      if activeStatus state_data && negb (circuitAdditionBenchStatus state_data)
      then StateCommission.mk (commissionId state_data) (commissionNameEn state_data)
             (activeStatus state_data) (circuitAdditionBenchStatus state_data)
           :: collect_states rest
      else collect_states rest
  end.

(** the filtering loop of [get_district_commissions] *)
Fixpoint collect_commissions (l : list JagritiCommission) : list DistrictCommission.t :=
  match l with
  | [] => []
  | commission_data :: rest =>
      if activeStatus commission_data
      then DistrictCommission.mk (commissionId commission_data)
             (commissionNameEn commission_data) (activeStatus commission_data)
           :: collect_commissions rest
      else collect_commissions rest
  end.

(** [e.status_code or 500] *)
Definition status_code_or_500 (status_code : option Z) : Z :=
  match status_code with
  | Some c => if c =? 0 then 500 else c
  | None => 500
  end.

Section Endpoints.

Context {W : Wire}.
Variable upstream : Upstream.

Definition get_states : M StatesResponse.t :=
  try_except
    (bind (get_states_and_commissions upstream jagriti_client) (fun jagriti_response =>
       let states :=
         sort_by StateCommission.name (collect_states (dir_data jagriti_response)) in
       ret (StatesResponse.mk states (Z.of_nat (List.length states)))))
    (fun e =>
       match e with
       | JagritiAPIException _ status_code _ =>
           raise (HTTPException (status_code_or_500 status_code)
                    ("Failed to fetch states from external API: " ++ str_exn e))
       | _ => raise (HTTPException 500 ("Internal server error: " ++ str_exn e))
       end).

Definition get_district_commissions (state_id : Z) : M DistrictCommissionsResponse.t :=
  try_except
    (bind (get_state_name_by_id upstream jagriti_client state_id) (fun state_name =>
       match state_name with
       | Some name =>
           if negb (PyStr.opt_truthy state_name) then
             raise (HTTPException 404
                      ("State with commission ID " ++ PyStr.of_Z state_id ++ " not found"))
           else
             bind (get_district_commissions upstream jagriti_client state_id)
               (fun jagriti_response =>
                  let commissions :=
                    sort_by DistrictCommission.name
                      (collect_commissions (dir_data jagriti_response)) in
                  ret (DistrictCommissionsResponse.mk commissions state_id name
                         (Z.of_nat (List.length commissions))))
       | None =>
           raise (HTTPException 404
                    ("State with commission ID " ++ PyStr.of_Z state_id ++ " not found"))
       end))
    (fun e =>
       match e with
       | HTTPException _ _ => raise e
       | JagritiAPIException _ status_code _ =>
           raise (HTTPException (status_code_or_500 status_code)
                    ("Failed to fetch district commissions from external API: "
                     ++ str_exn e))
       | _ => raise (HTTPException 500 ("Internal server error: " ++ str_exn e))
       end).

End Endpoints.

End Utilities.

(** ** Vocabulary of the statements *)

(** Two names are the same up to letter case, as a case mapping [fold] sees
    it: their folded forms are equal.  The state resolver folds with
    [str.upper], the district resolver with [str.lower]. *)
Definition same_ignoring_case (fold : string -> string) (a b : string) : Prop :=
  fold a = fold b.

(** [r] is the identifier of the first entry of [l] whose name is [name] up
    to letter case, or [None] when the directory has no such entry.  The
    two status flags of the entries play no part. *)
Definition FirstMatch (fold : string -> string) (name : string)
    (l : list JagritiCommission) (r : option Z) : Prop :=
  (exists l1 e l2,
      l = (l1 ++ e :: l2)%list /\
      same_ignoring_case fold (commissionNameEn e) name /\
      (forall e', In e' l1 -> ~ same_ignoring_case fold (commissionNameEn e') name) /\
      r = Some (commissionId e))
  \/ ((forall e, In e l -> ~ same_ignoring_case fold (commissionNameEn e) name)
      /\ r = None).

(** the upstream discriminant of a search kind *)
Definition discriminant (k : SearchKind) : Z :=
  match k with
  | CaseNumber => 1
  | Complainant => 2
  | Respondent => 3
  | ComplainantAdvocate => 4
  | RespondentAdvocate => 5
  | IndustryType => 6
  | Judge => 7
  end.

Section Traces.

Context {W : Wire}.

(** a timeout or another transport failure *)
Definition retryable (o : AttemptOutcome) : bool :=
  match o with
  | TimeoutException _ | RequestError _ => true
  | _ => false
  end.

Definition is_call (ev : Event) : bool :=
  match ev with EvSleep _ => false | _ => true end.

(** the number of network calls in a log *)
Definition calls_in (log : list Event) : nat := List.length (filter is_call log).

(** the delays slept in a log, in order *)
Fixpoint sleeps_in (log : list Event) : list Z :=
  match log with
  | [] => []
  | EvSleep s :: r => s :: sleeps_in r
  | _ :: r => sleeps_in r
  end.

(** [n] attempts of the same call, numbered from [attempt], with a sleep of
    [2 ^ index] after every attempt but the last. *)
Fixpoint backoff_trace (ev : Event) (attempt n : nat) : list Event :=
  match n with
  | O => []
  | S O => [ev]
  | S n' => ev :: EvSleep (2 ^ Z.of_nat attempt) :: backoff_trace ev (S attempt) n'
  end.

(** the two messages of retry exhaustion *)
Definition exhausted_message (self : JagritiAPIClient) (msg : string) : Prop :=
  msg = "Request timed out after " ++ PyStr.of_nat (max_retries self) ++ " attempts"
  \/ exists m, msg = "Request failed after " ++ PyStr.of_nat (max_retries self)
                     ++ " attempts: " ++ m.

End Traces.

(** ** Concrete upstream snapshots *)

Module Scenario.

(** A small stand-in for parsed JSON: a body that validates as a directory,
    one that validates as a case list, and an error object. *)
Inductive SampleJson : Type :=
| JDirectory (r : JagritiDirectoryResponse)
| JCases (r : JagritiCaseSearchResponse)
| JErrorObject (error : string).

Definition as_directory (model : string) (o : option SampleJson)
    : string + JagritiDirectoryResponse :=
  match o with
  | Some (JDirectory r) => inr r
  | _ => inl ("1 validation error for " ++ model)
  end.

Definition as_cases (o : option SampleJson) : string + JagritiCaseSearchResponse :=
  match o with
  | Some (JCases r) => inr r
  | _ => inl "1 validation error for JagritiCaseSearchResponse"
  end.

Definition wire : Wire :=
  {| str_upper := PyStr.upper;
     str_lower := PyStr.lower;
     Json := SampleJson;
     parse_states := as_directory "JagritiStatesResponse";
     parse_districts := as_directory "JagritiDistrictCommissionsResponse";
     parse_cases := as_cases |}.

#[local] Existing Instance wire.

Definition states : list JagritiCommission :=
  [ mkCommission 11290000 "KARNATAKA" false true;
    mkCommission 11270000 "MAHARASHTRA" false true ].

Definition districts : list JagritiCommission :=
  [ mkCommission 15290525 "Bangalore 1st & Rural Additional" false true;
    mkCommission 11290525 "Bangalore Urban" false true ].

Definition case_with_document : JagritiCaseDetail :=
  mkCaseDetail "DC/AB4/525/CC/72/2025" "MANJUNATHA REDDY" (Some "D Narase Gowda")
    "INTERGLOBE AVIATION LIMITED" None "2025-05-23" (Some "/docs/x.pdf")
    None None "ADMIT" true.

Definition case_without_document : JagritiCaseDetail :=
  mkCaseDetail "DC/AB4/525/CC/80/2025" "K REDDY" None
    "ACME LIMITED" None "2025-06-02" None None None "REGISTERED" false.

Definition case_with_empty_path : JagritiCaseDetail :=
  mkCaseDetail "DC/AB4/525/CC/81/2025" "S REDDY" None
    "ACME LIMITED" None "2025-06-03" (Some "") None None "REGISTERED" false.

Definition ok_json (j : SampleJson) : AttemptOutcome :=
  Responded (mkHttpResponse 200 "{...}" (inr j)).

(** the directory snapshot of the end-to-end scenario, parametrised by the
    two directories *)
Definition snapshot_with (sts dists : list JagritiCommission) : Upstream := fun log =>
  match last log (EvSleep 0) with
  | EvGet _ None => ok_json (JDirectory (mkDirectoryResponse sts "ok" "false" 200))
  | EvGet _ (Some _) => ok_json (JDirectory (mkDirectoryResponse dists "ok" "false" 200))
  | EvPost _ _ =>
      ok_json (JCases (mkCaseSearchResponse "ok" 200
                         [case_with_document; case_without_document] "false"))
  | EvSleep _ => OtherFailure "no call"
  end.

Definition snapshot : Upstream := snapshot_with states districts.

(** a state directory whose only entry for Karnataka has identifier [0] *)
Definition zero_state : JagritiCommission := mkCommission 0 "Karnataka" false true.

Definition snapshot_zero_state : Upstream := snapshot_with [zero_state] districts.

(** a district directory whose first matching entry has identifier [0] *)
Definition zero_district : JagritiCommission :=
  mkCommission 0 "BANGALORE 1ST & RURAL ADDITIONAL" false true.

Definition snapshot_zero_district : Upstream :=
  snapshot_with states [ mkCommission 11290525 "Bangalore Urban" false true;
                         zero_district;
                         mkCommission 15290525 "Bangalore 1st & Rural Additional" false true ].

Definition get_states_event : Event :=
  EvGet Settings.ENDPOINT_states_commissions None.

Definition get_districts_event (state_commission_id : Z) : Event :=
  EvGet Settings.ENDPOINT_district_commissions (Some state_commission_id).

(** every attempt times out *)
Definition always_timeout : Upstream := fun _ => TimeoutException "timed out".

(** every call is answered [404] with an HTML page *)
Definition html_404 : Upstream := fun _ =>
  Responded (mkHttpResponse 404 "<html>Not Found</html>"
               (inl "Expecting value: line 1 column 1 (char 0)")).

(** every call is answered [404] with the JSON object [{error: Not Found}] *)
Definition json_404_text : string :=
  "{" ++ PyStr.dquote ++ "error" ++ PyStr.dquote ++ ": "
      ++ PyStr.dquote ++ "Not Found" ++ PyStr.dquote ++ "}".

Definition json_404 : Upstream := fun _ =>
  Responded (mkHttpResponse 404 json_404_text (inr (JErrorObject "Not Found"))).

Definition get_states_request : Request :=
  mkReq "GET" Settings.ENDPOINT_states_commissions None None.

Definition reddy_request : CaseSearchRequest :=
  mkRequest "KARNATAKA" "Bangalore 1st & Rural Additional" "REDDY" None None.

(** what the snapshot answers to [reddy_request] by complainant *)
Definition reddy_result : CaseSearchResponse :=
  mkSearchResponse
    [ mkCaseResponse "DC/AB4/525/CC/72/2025" "ADMIT" "2025-05-23" "MANJUNATHA REDDY"
        (Some "D Narase Gowda") "INTERGLOBE AVIATION LIMITED" None
        (Some "https://e-jagriti.gov.in/docs/x.pdf");
      mkCaseResponse "DC/AB4/525/CC/80/2025" "REGISTERED" "2025-06-02" "K REDDY"
        None "ACME LIMITED" None None ]
    2
    [ ("state", PStr "KARNATAKA");
      ("commission", PStr "Bangalore 1st & Rural Additional");
      ("search_value", PStr "REDDY");
      ("search_type", PInt 2);
      ("from_date", PStr "2025-01-01");
      ("to_date", PStr "2025-09-03");
      ("state_commission_id", PInt 11290000);
      ("district_commission_id", PInt 15290525) ].

Definition reddy_log : list Event :=
  [ get_states_event;
    get_districts_event 11290000;
    EvPost Settings.ENDPOINT_case_search
      (Some (mkPayload 15290525 1 "2025-01-01" "2025-09-03" "" 1 2 "REDDY")) ].

Definition raw_reddy (from_date to_date : option string) : Requests.RawRequest :=
  Requests.mkRaw "Karnataka" "Bangalore 1st & Rural Additional" "REDDY"
                 from_date to_date.

End Scenario.

(** ** Further upstream snapshots *)

Module MoreScenarios.

Import Scenario.

#[local] Existing Instance wire.

(** the first call times out, every later call is answered by [u] *)
Definition timeout_then (u : Upstream) : Upstream := fun log =>
  if (calls_in log <=? 1)%nat then TimeoutException "timed out" else u log.

Definition flaky : Upstream := timeout_then snapshot.

(** the first three calls time out, every later call is answered *)
Definition three_timeouts_then_ok : Upstream := fun log =>
  if (calls_in log <=? 3)%nat then TimeoutException "timed out" else snapshot log.

Definition karnataka : JagritiCommission :=
  mkCommission 11290000 "KARNATAKA" false true.
Definition karnataka_bench : JagritiCommission :=
  mkCommission 11290001 "KARNATAKA CIRCUIT BENCH" true true.
Definition assam : JagritiCommission :=
  mkCommission 11050000 "ASSAM" false true.
Definition old_state : JagritiCommission :=
  mkCommission 11990000 "OLD STATE" false false.

(** a state directory with a circuit bench and an inactive state *)
Definition mixed_states : list JagritiCommission :=
  [ karnataka; karnataka_bench; assam; old_state ].

(** a district directory with an inactive entry and an active circuit bench *)
Definition mixed_districts : list JagritiCommission :=
  [ mkCommission 15290525 "Bangalore Urban" false true;
    mkCommission 15290526 "Closed Commission" false false;
    mkCommission 15290527 "Bangalore Circuit Bench" true true ].

Definition snapshot_mixed : Upstream := snapshot_with mixed_states mixed_districts.

Definition mixed_states_response : JagritiDirectoryResponse :=
  mkDirectoryResponse mixed_states "ok" "false" 200.

Definition mixed_districts_response : JagritiDirectoryResponse :=
  mkDirectoryResponse mixed_districts "ok" "false" 200.

Definition mixed_states_listing : StatesResponse.t :=
  StatesResponse.mk
    [ StateCommission.mk 11050000 "ASSAM" true false;
      StateCommission.mk 11290000 "KARNATAKA" true false ] 2.

(** the listing asked for the inactive state *)
Definition mixed_commissions_listing : DistrictCommissionsResponse.t :=
  DistrictCommissionsResponse.mk
    [ DistrictCommission.mk 15290527 "Bangalore Circuit Bench" true;
      DistrictCommission.mk 15290525 "Bangalore Urban" true ]
    11990000 "OLD STATE" 2.

Definition states_json : SampleJson :=
  JDirectory (mkDirectoryResponse states "ok" "false" 200).

Definition states_page_ok : HttpResponse :=
  mkHttpResponse 200 "{...}" (inr states_json).

Definition states_page_404 : HttpResponse :=
  mkHttpResponse 404 json_404_text (inr (JErrorObject "Not Found")).

End MoreScenarios.

(** ** Vocabulary for the sorted listings *)

(** [a] does not come after [b] in the order of [<] on strings *)
Definition str_le (a b : string) : Prop := String.ltb b a = false.

(** the elements of [l] whose key is [k], in the order they have in [l] *)
Definition with_key {A : Type} (key : A -> string) (k : string) (l : list A) : list A :=
  filter (fun x => String.eqb (key x) k) l.

(** non-decreasing keys from left to right *)
Definition sorted_by {A : Type} (key : A -> string) (l : list A) : Prop :=
  StronglySorted (fun x y => str_le (key x) (key y)) l.

(** * Properties *)

(** ** Letter case *)

Lemma lower_app (a b : string) :
  PyStr.lower (a ++ b) = PyStr.lower a ++ PyStr.lower b.
Proof.
  induction a as [|c a IH]; simpl; [reflexivity|].
  unfold PyStr.lower in *; simpl. now rewrite IH.
Qed.

Lemma prefix_app (n a : string) : prefix n (n ++ a) = true.
Proof.
  induction n as [|c n IH]; simpl.
  - now destruct a.
  - rewrite IH. now destruct (ascii_dec c c).
Qed.

Lemma contains_app_r (n a b : string) :
  PyStr.contains n b = true -> PyStr.contains n (a ++ b) = true.
Proof.
  intros H. induction a as [|c a IH]; simpl; [exact H|].
  rewrite IH. apply orb_true_r.
Qed.

Lemma contains_app_l (n a b : string) :
  PyStr.contains n (a ++ n ++ b) = true.
Proof.
  apply contains_app_r. destruct n; simpl.
  - now destruct b.
  - rewrite prefix_app. now destruct (ascii_dec a0 a0).
Qed.

Lemma prefix_app_keep (n a b : string) :
  prefix n a = true -> prefix n (a ++ b) = true.
Proof.
  revert a. induction n as [|c n IH]; intros a H.
  - now destruct (a ++ b).
  - destruct a as [|d a]; simpl in *; [discriminate|].
    destruct (ascii_dec c d); [now apply IH|discriminate].
Qed.

Lemma contains_app_keep (n a b : string) :
  PyStr.contains n a = true -> PyStr.contains n (a ++ b) = true.
Proof.
  induction a as [|c a IH]; intros H.
  - simpl in H. rewrite orb_false_r in H.
    destruct n; [|discriminate]. simpl. now destruct b.
  - cbn [PyStr.contains] in H. apply orb_true_iff in H.
    change ((String c a) ++ b) with (String c (a ++ b)).
    cbn [PyStr.contains]. apply orb_true_iff.
    destruct H as [H|H]; [left|right; now apply IH].
    now apply (prefix_app_keep n (String c a) b).
Qed.

(** ** Directory scans *)

Lemma scan_states_first_match {W : Wire} (name : string)
    (l : list JagritiCommission) :
  FirstMatch str_upper name l (scan_states (str_upper name) l).
Proof.
  unfold FirstMatch, same_ignoring_case. induction l as [|e l IH]; simpl.
  - right. split; [intros e []|reflexivity].
  - destruct (String.eqb_spec (str_upper (commissionNameEn e)) (str_upper name))
      as [E|N].
    + left. exists [], e, l. repeat split; [exact E|intros e' []].
    + destruct IH as [(l1 & m & l2 & -> & Hm & Hl1 & ->)|[Hnone ->]].
      * left. exists (e :: l1), m, l2. repeat split; [exact Hm|].
        intros e' [<-|Hin]; [exact N|now apply Hl1].
      * right. split; [|reflexivity].
        intros e' [<-|Hin]; [exact N|now apply Hnone].
Qed.

Lemma scan_districts_first_match {W : Wire} (name : string)
    (l : list JagritiCommission) :
  FirstMatch str_lower name l (scan_districts name l).
Proof.
  unfold FirstMatch, same_ignoring_case. induction l as [|e l IH]; simpl.
  - right. split; [intros e []|reflexivity].
  - destruct (String.eqb_spec (str_lower (commissionNameEn e)) (str_lower name))
      as [E|N].
    + left. exists [], e, l. repeat split; [exact E|intros e' []].
    + destruct IH as [(l1 & m & l2 & -> & Hm & Hl1 & ->)|[Hnone ->]].
      * left. exists (e :: l1), m, l2. repeat split; [exact Hm|].
        intros e' [<-|Hin]; [exact N|now apply Hl1].
      * right. split; [|reflexivity].
        intros e' [<-|Hin]; [exact N|now apply Hnone].
Qed.

(** [FirstMatch] determines the result: the head of the match is unique. *)
Lemma FirstMatch_functional (fold : string -> string) (name : string)
    (l : list JagritiCommission) (r1 r2 : option Z) :
  FirstMatch fold name l r1 -> FirstMatch fold name l r2 -> r1 = r2.
Proof.
  revert r1 r2. induction l as [|e l IH]; intros r1 r2 H1 H2.
  - destruct H1 as [(l1 & m & l2 & E & _)|[_ ->]]; [now destruct l1|].
    destruct H2 as [(l1 & m & l2 & E & _)|[_ ->]]; [now destruct l1|reflexivity].
  - assert (Step : forall r, FirstMatch fold name (e :: l) r ->
        (same_ignoring_case fold (commissionNameEn e) name
         /\ r = Some (commissionId e))
        \/ (~ same_ignoring_case fold (commissionNameEn e) name
            /\ FirstMatch fold name l r)).
    { intros r [(l1 & m & l2 & E & Hm & Hl1 & ->)|[Hnone ->]].
      - destruct l1 as [|x l1]; simpl in E; inversion E; subst.
        + left. now split.
        + right. split; [apply Hl1; now left|].
          left. exists l1, m, l2. repeat split; [exact Hm|].
          intros e' Hin. apply Hl1. now right.
      - right. split; [apply Hnone; now left|].
        right. split; [|reflexivity]. intros e' Hin. apply Hnone. now right. }
    destruct (Step _ H1) as [[S1 ->]|[N1 F1]], (Step _ H2) as [[S2 ->]|[N2 F2]];
      try reflexivity; try contradiction.
    now apply IH.
Qed.

(** ** Traces of the retry loop *)

Section TraceFacts.

Context {W : Wire}.

Lemma call_event_is_call (req : Request) : is_call (call_event req) = true.
Proof.
  unfold call_event. now destruct (String.eqb _ _).
Qed.

Lemma calls_in_backoff_trace (ev : Event) (a n : nat) :
  is_call ev = true -> calls_in (backoff_trace ev a n) = n.
Proof.
  intros Hev. revert a. induction n as [|n IH]; intros a; [reflexivity|].
  destruct n as [|n].
  - unfold calls_in; simpl. now rewrite Hev.
  - specialize (IH (S a)). unfold calls_in in *.
    change (backoff_trace ev a (S (S n)))
      with (ev :: EvSleep (2 ^ Z.of_nat a) :: backoff_trace ev (S a) (S n)).
    cbn [filter is_call]. rewrite Hev. cbn [List.length]. now rewrite IH.
Qed.

Lemma sleeps_in_backoff_trace (ev : Event) (a n : nat) :
  is_call ev = true ->
  sleeps_in (backoff_trace ev a n) = map (fun i => 2 ^ Z.of_nat i) (seq a (n - 1)).
Proof.
  intros Hev. revert a. induction n as [|n IH]; intros a; [reflexivity|].
  destruct n as [|n].
  - simpl. now destruct ev.
  - specialize (IH (S a)).
    change (backoff_trace ev a (S (S n)))
      with (ev :: EvSleep (2 ^ Z.of_nat a) :: backoff_trace ev (S a) (S n)).
    replace (S (S n) - 1)%nat with (S (S n - 1)) by lia.
    cbn [seq map]. rewrite <- IH.
    destruct ev; try discriminate; reflexivity.
Qed.

End TraceFacts.

(** ** The request primitive *)

Section RequestPrimitive.

Context {W : Wire}.
Variable upstream : Upstream.

(** When each of the [S n] attempts that remain from index [a] on fails in
    transport, the loop performs exactly those attempts, sleeps [2 ^ index]
    after each but the last, and raises.  Only the answers to these attempts
    matter: the history at attempt [a + i] is the log followed by the first
    [i + 1] attempts of the schedule. *)
Lemma make_request_loop_exhausts (self : JagritiAPIClient) (req : Request) :
  forall n a log,
    (a + S n = max_retries self)%nat ->
    (forall i, (i <= n)%nat ->
       retryable (upstream (log ++ backoff_trace (call_event req) a (S i))%list)
       = true) ->
    exists msg,
      make_request_loop upstream self req (seq a (S n)) log
      = (Raise (JagritiAPIException msg None None),
         (log ++ backoff_trace (call_event req) a (S n))%list)
      /\ exhausted_message self msg.
Proof.
  induction n as [|n IH]; intros a log Ha Hup.
  - cbn [seq make_request_loop]. unfold bind, perform.
    specialize (Hup 0%nat (le_n 0)). cbn [backoff_trace] in Hup.
    destruct (upstream (log ++ [call_event req])%list) as [m|m|r|m];
      try discriminate.
    + replace (Z.of_nat a =? Z.of_nat (max_retries self) - 1) with true
        by (symmetry; apply Z.eqb_eq; lia).
      eexists. split; [reflexivity|]. now left.
    + replace (Z.of_nat a =? Z.of_nat (max_retries self) - 1) with true
        by (symmetry; apply Z.eqb_eq; lia).
      eexists. split; [reflexivity|]. right. now exists m.
  - change (seq a (S (S n))) with (a :: seq (S a) (S n)).
    cbn [make_request_loop]. unfold bind at 1. unfold perform.
    pose proof (Hup 0%nat ltac:(lia)) as Hr. cbn [backoff_trace] in Hr.
    destruct (IH (S a)
                ((log ++ [call_event req]) ++ [EvSleep (2 ^ Z.of_nat a)])%list)
      as (msg & Hrun & Hmsg); [lia| |].
    { intros i Hi. specialize (Hup (S i) ltac:(lia)).
      change (backoff_trace (call_event req) a (S (S i)))
        with (call_event req :: EvSleep (2 ^ Z.of_nat a)
                :: backoff_trace (call_event req) (S a) (S i)) in Hup.
      now rewrite <- !app_assoc. }
    exists msg. split; [|exact Hmsg].
    change (backoff_trace (call_event req) a (S (S n)))
      with (call_event req :: EvSleep (2 ^ Z.of_nat a)
              :: backoff_trace (call_event req) (S a) (S n)).
    replace (log ++ call_event req :: EvSleep (2 ^ Z.of_nat a)
                 :: backoff_trace (call_event req) (S a) (S n))%list
      with (((log ++ [call_event req]) ++ [EvSleep (2 ^ Z.of_nat a)])
              ++ backoff_trace (call_event req) (S a) (S n))%list
      by (rewrite <- !app_assoc; reflexivity).
    rewrite <- Hrun.
    destruct (upstream (log ++ [call_event req])%list) as [m|m|r|m];
      try discriminate;
      replace (Z.of_nat a =? Z.of_nat (max_retries self) - 1) with false
        by (symmetry; apply Z.eqb_neq; lia);
      reflexivity.
Qed.

(** A response with a status outside 200..299 ends the loop on the spot,
    whatever the attempt index and however many attempts remain: the only
    event added is the call that was answered. *)
Lemma http_error_never_retried (self : JagritiAPIClient) (req : Request)
    (attempt : nat) (rest : list nat) (log : list Event) (r : HttpResponse) :
  upstream (log ++ [call_event req])%list = Responded r ->
  is_success r = false ->
  exists e,
    make_request_loop upstream self req (attempt :: rest) log
    = (Raise e, (log ++ [call_event req])%list).
Proof.
  intros Hr Hs. cbn [make_request_loop]. unfold bind, perform.
  rewrite Hr, Hs.
  destruct (PyStr.truthy (resp_text r)); [destruct (resp_json r)|];
    eexists; reflexivity.
Qed.

(** X15.  When the body of a non-2xx response is empty or is JSON,
    [_make_request] raises at that attempt, without retrying, an exception
    that carries the status code, the body text in its message and the
    decoded body (absent exactly when the body is empty). *)
Lemma http_error_with_decodable_body (self : JagritiAPIClient) (req : Request)
    (attempt : nat) (rest : list nat) (log : list Event) (r : HttpResponse) :
  upstream (log ++ [call_event req])%list = Responded r ->
  is_success r = false ->
  (resp_text r = "" \/ exists j, resp_json r = inr j) ->
  exists body,
    make_request_loop upstream self req (attempt :: rest) log
    = (Raise (JagritiAPIException
                ("HTTP " ++ PyStr.of_Z (resp_status r) ++ " error: " ++ resp_text r)
                (Some (resp_status r)) body),
       (log ++ [call_event req])%list)
    /\ (body = None <-> resp_text r = "").
Proof.
  intros Hr Hs Hbody. cbn [make_request_loop]. unfold bind, perform.
  rewrite Hr, Hs.
  destruct (resp_text r) as [|c t] eqn:Ht; cbn [PyStr.truthy].
  - exists None. split; [reflexivity|tauto].
  - destruct Hbody as [Hb|[j Hj]]; [discriminate|]. rewrite Hj.
    exists (Some j). split; [reflexivity|]. split; discriminate.
Qed.

(** C1 (amended).  When every attempt of a request fails with a timeout or
    another transport failure and the client allows at least one attempt,
    [_make_request] performs exactly [max_retries] attempts, sleeps
    [2 ^ attempt] time units after each attempt but the last (so the delays
    are [2^0 .. 2^(max_retries - 2)]: 1 and 2 for the default of three
    attempts), and then raises the timed-out / request-failed exception.
    The premise is about the [max_retries] attempts of this request only:
    what the upstream would answer to any other call, before or after, is
    free. *)
Theorem make_request_retry_bound (self : JagritiAPIClient) (req : Request)
    (log : list Event) :
  (0 < max_retries self)%nat ->
  (forall i, (i < max_retries self)%nat ->
     retryable (upstream (log ++ backoff_trace (call_event req) 0 (S i))%list)
     = true) ->
  exists msg trace,
    _make_request upstream self req log
    = (Raise (JagritiAPIException msg None None), (log ++ trace)%list)
    /\ exhausted_message self msg
    /\ trace = backoff_trace (call_event req) 0 (max_retries self)
    /\ calls_in trace = max_retries self
    /\ sleeps_in trace
       = map (fun attempt => 2 ^ Z.of_nat attempt) (seq 0 (max_retries self - 1)).
Proof.
  intros Hpos Hup. unfold _make_request.
  destruct (max_retries self) as [|n] eqn:Hn; [lia|].
  destruct (make_request_loop_exhausts self req n 0%nat log) as (msg & Hrun & Hmsg);
    [lia|intros i Hi; apply Hup; lia|].
  exists msg, (backoff_trace (call_event req) 0 (S n)).
  split; [exact Hrun|]. split; [exact Hmsg|]. split; [reflexivity|]. split.
  - apply calls_in_backoff_trace, call_event_is_call.
  - apply sleeps_in_backoff_trace, call_event_is_call.
Qed.

End RequestPrimitive.

(** ** Resolver, orchestrator and endpoints *)

Section Orchestrator.

Context {W : Wire}.
Variable upstream : Upstream.

Lemma make_request_loop_extends (self : JagritiAPIClient) (req : Request)
    (attempts : list nat) :
  forall log, exists tail,
    snd (make_request_loop upstream self req attempts log) = (log ++ tail)%list.
Proof.
  induction attempts as [|a rest IH]; intros log.
  - exists []. simpl. now rewrite app_nil_r.
  - cbn [make_request_loop]. unfold bind at 1. unfold perform.
    destruct (IH ((log ++ [call_event req]) ++ [EvSleep (2 ^ Z.of_nat a)])%list)
      as (t & Ht).
    assert (Hretry : exists tail,
      snd (bind (sleep (2 ^ Z.of_nat a))
             (fun _ => make_request_loop upstream self req rest)
             (log ++ [call_event req])%list) = (log ++ tail)%list).
    { unfold bind, sleep, emit. rewrite Ht.
      exists ([call_event req] ++ [EvSleep (2 ^ Z.of_nat a)] ++ t)%list.
      now rewrite <- !app_assoc. }
    destruct (upstream (log ++ [call_event req])%list) as [m|m|r|m].
    + destruct (Z.of_nat a =? _); [now exists [call_event req]|exact Hretry].
    + destruct (Z.of_nat a =? _); [now exists [call_event req]|exact Hretry].
    + exists [call_event req].
      destruct (is_success r); [now destruct (resp_json r)|].
      destruct (PyStr.truthy (resp_text r)); [now destruct (resp_json r)|reflexivity].
    + now exists [call_event req].
Qed.

(** the first thing a non-empty loop does is the call *)
Lemma make_request_loop_first_event (self : JagritiAPIClient) (req : Request)
    (a : nat) (rest : list nat) (log : list Event) :
  exists tail,
    snd (make_request_loop upstream self req (a :: rest) log)
    = (log ++ call_event req :: tail)%list.
Proof.
  cbn [make_request_loop]. unfold bind at 1. unfold perform.
  assert (Hretry : exists tail,
    snd (bind (sleep (2 ^ Z.of_nat a))
           (fun _ => make_request_loop upstream self req rest)
           (log ++ [call_event req])%list) = (log ++ call_event req :: tail)%list).
  { unfold bind, sleep, emit.
    destruct (make_request_loop_extends self req rest
                ((log ++ [call_event req]) ++ [EvSleep (2 ^ Z.of_nat a)])%list)
      as (t & Ht).
    rewrite Ht. exists (EvSleep (2 ^ Z.of_nat a) :: t).
    now rewrite <- !app_assoc. }
  destruct (upstream (log ++ [call_event req])%list) as [m|m|r|m].
  - destruct (Z.of_nat a =? _); [now exists []|exact Hretry].
  - destruct (Z.of_nat a =? _); [now exists []|exact Hretry].
  - exists [].
    destruct (is_success r); [now destruct (resp_json r)|].
    destruct (PyStr.truthy (resp_text r)); [now destruct (resp_json r)|reflexivity].
  - now exists [].
Qed.

(** [search_cases] adds to the log what its request adds *)
Lemma search_cases_log (self : JagritiAPIClient)
    (payload : JagritiCaseSearchRequest) (log : list Event) :
  snd (search_cases upstream self payload log)
  = snd (_make_request upstream self
           (mkReq "POST" Settings.ENDPOINT_case_search (Some payload) None) log).
Proof.
  unfold search_cases, try_except, bind.
  destruct (_make_request upstream self _ log) as [[j|e] log']; [|reflexivity].
  unfold construct. now destruct (parse_cases j).
Qed.

(** once both identifiers are resolved, the service posts the payload built
    from them *)
Lemma search_cases_by_type_posts (request : CaseSearchRequest) (search_type : Z)
    (log log1 log2 : list Event) (sid did : Z) :
  find_state_commission_id upstream jagriti_client (state request) log
    = (Return (Some sid), log1) ->
  sid <> 0 ->
  find_district_commission_id upstream jagriti_client sid (commission request) log1
    = (Return (Some did), log2) ->
  did <> 0 ->
  exists tail,
    snd (search_cases_by_type upstream request search_type log)
    = (log2 ++ EvPost Settings.ENDPOINT_case_search
         (Some (jagriti_request_of request search_type did
                  (PyStr.or_default (from_date request) Settings.DEFAULT_FROM_DATE)
                  (PyStr.or_default (to_date request) Settings.DEFAULT_TO_DATE)))
         :: tail)%list.
Proof.
  intros Hs Hsid Hd Hdid.
  set (payload := jagriti_request_of _ _ _ _ _).
  destruct (make_request_loop_first_event jagriti_client
              (mkReq "POST" Settings.ENDPOINT_case_search (Some payload) None)
              0%nat [1%nat; 2%nat] log2) as (tail & Ht).
  exists tail.
  unfold search_cases_by_type, try_except, search_cases_body.
  unfold bind at 1. rewrite Hs. unfold id_truthy.
  apply Z.eqb_neq in Hsid. rewrite Hsid. cbn [negb].
  unfold bind at 1. rewrite Hd.
  apply Z.eqb_neq in Hdid. rewrite Hdid. cbn [negb].
  unfold bind at 1. fold payload.
  pose proof (search_cases_log jagriti_client payload log2) as Hlog.
  unfold _make_request in Hlog. change (seq 0 (max_retries jagriti_client))
    with [0%nat; 1%nat; 2%nat] in Hlog.
  rewrite Ht in Hlog.
  destruct (search_cases upstream jagriti_client payload log2) as [[resp|e] log3];
    simpl in Hlog; subst log3; [reflexivity|].
  now destruct e.
Qed.

(** after a successful fetch the resolvers return what the scan finds *)
Lemma find_state_after_fetch (self : JagritiAPIClient) (name : string)
    (log log' : list Event) (resp : JagritiDirectoryResponse) :
  get_states_and_commissions upstream self log = (Return resp, log') ->
  find_state_commission_id upstream self name log
  = (Return (scan_states (str_upper name) (dir_data resp)), log').
Proof.
  intros H. unfold find_state_commission_id, try_except, bind. now rewrite H.
Qed.

Lemma find_district_after_fetch (self : JagritiAPIClient) (sid : Z) (name : string)
    (log log' : list Event) (resp : JagritiDirectoryResponse) :
  get_district_commissions upstream self sid log = (Return resp, log') ->
  find_district_commission_id upstream self sid name log
  = (Return (scan_districts name (dir_data resp)), log').
Proof.
  intros H. unfold find_district_commission_id, try_except, bind. now rewrite H.
Qed.

(** C3.  Whatever directory the upstream returns and whatever name is asked
    for, [find_state_commission_id] returns the identifier of the first entry
    (in the returned order) whose name equals the input up to letter case,
    and [None] when no entry does; the active and circuit-bench flags are
    not consulted.  The same holds for [find_district_commission_id] over
    the district directory.  Equality up to letter case is equality of the
    whole texts after [str.upper] for states and after [str.lower] for
    districts, for whatever these two mappings do on the names at hand. *)
Theorem resolve_first_match (self : JagritiAPIClient) (name : string)
    (state_commission_id : Z) (log : list Event) :
  (forall resp log',
      get_states_and_commissions upstream self log = (Return resp, log') ->
      exists r,
        find_state_commission_id upstream self name log = (Return r, log')
        /\ FirstMatch str_upper name (dir_data resp) r)
  /\
  (forall resp log',
      get_district_commissions upstream self state_commission_id log
        = (Return resp, log') ->
      exists r,
        find_district_commission_id upstream self state_commission_id name log
          = (Return r, log')
        /\ FirstMatch str_lower name (dir_data resp) r).
Proof.
  split; intros resp log' H.
  - exists (scan_states (str_upper name) (dir_data resp)). split.
    + now apply find_state_after_fetch.
    + apply scan_states_first_match.
  - exists (scan_districts name (dir_data resp)). split.
    + now apply find_district_after_fetch.
    + apply scan_districts_first_match.
Qed.

(** C4.  For each of the seven search kinds, once the state and the district
    are resolved, the body posted to the case-search endpoint carries the
    kind's discriminant (1..7) in [serchType], [dateRequestType = 1],
    [orderType = 1], an empty [judgeId], the resolved district identifier,
    the search value, and the given or defaulted date range. *)
Theorem search_payload_of_kind (k : SearchKind) (request : CaseSearchRequest)
    (log log1 log2 : list Event) (sid did : Z) :
  find_state_commission_id upstream jagriti_client (state request) log
    = (Return (Some sid), log1) ->
  sid <> 0 ->
  find_district_commission_id upstream jagriti_client sid (commission request) log1
    = (Return (Some did), log2) ->
  did <> 0 ->
  nth_error (snd (service_method upstream k request log)) (List.length log2)
  = Some (EvPost Settings.ENDPOINT_case_search
            (Some {| p_commissionId := did;
                     dateRequestType := 1;
                     fromDate := match from_date request with
                                 | Some (String c s) => String c s
                                 | _ => Settings.DEFAULT_FROM_DATE
                                 end;
                     toDate := match to_date request with
                               | Some (String c s) => String c s
                               | _ => Settings.DEFAULT_TO_DATE
                               end;
                     judgeId := "";
                     orderType := 1;
                     serchType := discriminant k;
                     serchTypeValue := search_value request |})).
Proof.
  intros Hs Hsid Hd Hdid.
  assert (Hk : service_method upstream k request log
               = search_cases_by_type upstream request (discriminant k) log)
    by (destruct k; reflexivity).
  rewrite Hk.
  destruct (search_cases_by_type_posts request (discriminant k) log log1 log2
              sid did Hs Hsid Hd Hdid) as (tail & ->).
  rewrite nth_error_app2 by lia. rewrite Nat.sub_diag. cbn [nth_error].
  unfold jagriti_request_of, PyStr.or_default, PyStr.truthy.
  destruct (from_date request) as [[|c s]|], (to_date request) as [[|c' s']|];
    reflexivity.
Qed.

(** C8.  A search that succeeds returns the transforms of the upstream
    records in the upstream order, one output per record with nothing
    dropped or moved; [total_count] is the length of that list; and the
    criteria echo holds the request's state, commission and search value,
    the search type, the given or defaulted date range and both resolved
    identifiers. *)
Theorem search_result_shape (request : CaseSearchRequest) (search_type : Z)
    (log log' : list Event) (result : CaseSearchResponse) :
  search_cases_by_type upstream request search_type log = (Return result, log') ->
  exists sid did log1 log2 from_date' to_date' upstream_response,
    find_state_commission_id upstream jagriti_client (state request) log
      = (Return (Some sid), log1)
    /\ find_district_commission_id upstream jagriti_client sid (commission request) log1
      = (Return (Some did), log2)
    /\ from_date' = match from_date request with
                    | Some (String c s) => String c s
                    | _ => Settings.DEFAULT_FROM_DATE
                    end
    /\ to_date' = match to_date request with
                  | Some (String c s) => String c s
                  | _ => Settings.DEFAULT_TO_DATE
                  end
    /\ search_cases upstream jagriti_client
         (jagriti_request_of request search_type did from_date' to_date') log2
       = (Return upstream_response, log')
    /\ List.length (cases result) = List.length (cs_data upstream_response)
    /\ (forall i, nth_error (cases result) i
                  = option_map _transform_case_detail
                      (nth_error (cs_data upstream_response) i))
    /\ total_count result = Z.of_nat (List.length (cases result))
    /\ search_criteria result
       = [ ("state", PStr (state request));
           ("commission", PStr (commission request));
           ("search_value", PStr (search_value request));
           ("search_type", PInt search_type);
           ("from_date", PStr from_date');
           ("to_date", PStr to_date');
           ("state_commission_id", PInt sid);
           ("district_commission_id", PInt did) ].
Proof.
  unfold search_cases_by_type, try_except.
  destruct (search_cases_body upstream request search_type log) as [[r|e] l] eqn:Hbody;
    [|destruct e; discriminate].
  intros H; inversion H; subst r l; clear H.
  unfold search_cases_body in Hbody. unfold bind at 1 in Hbody.
  destruct (find_state_commission_id upstream jagriti_client (state request) log)
    as [[[sid|]|e] log1] eqn:Hs; try discriminate.
  destruct (negb (id_truthy (Some sid))); [discriminate|].
  unfold bind at 1 in Hbody.
  destruct (find_district_commission_id upstream jagriti_client sid
              (commission request) log1) as [[[did|]|e] log2] eqn:Hd;
    try discriminate.
  destruct (negb (id_truthy (Some did))); [discriminate|].
  unfold bind at 1 in Hbody.
  destruct (search_cases upstream jagriti_client _ log2)
    as [[resp|e] log3] eqn:Hsearch; [|discriminate].
  inversion Hbody; subst; clear Hbody.
  assert (Hf : PyStr.or_default (from_date request) Settings.DEFAULT_FROM_DATE
               = match from_date request with
                 | Some (String c s) => String c s
                 | _ => Settings.DEFAULT_FROM_DATE
                 end)
    by (unfold PyStr.or_default; destruct (from_date request) as [[|c s]|]; reflexivity).
  assert (Ht : PyStr.or_default (to_date request) Settings.DEFAULT_TO_DATE
               = match to_date request with
                 | Some (String c s) => String c s
                 | _ => Settings.DEFAULT_TO_DATE
                 end)
    by (unfold PyStr.or_default; destruct (to_date request) as [[|c s]|]; reflexivity).
  rewrite Hf, Ht in Hsearch.
  exists sid, did, log1, log2. do 3 eexists.
  split; [reflexivity|]. split; [exact Hd|].
  split; [reflexivity|]. split; [reflexivity|].
  split; [exact Hsearch|].
  cbn [cases total_count search_criteria].
  split; [apply length_map|].
  split; [intros i; apply nth_error_map|].
  split; [reflexivity|].
  now rewrite Hf, Ht.
Qed.

(** C9.  When the first entry of the state directory whose name equals the
    requested state up to letter case (equal after [str.upper], the state
    resolver's comparison) has [commissionId = 0], the search fails with the
    state-not-found message and goes no further than the directory fetch;
    likewise a district whose first matching entry (equal after
    [str.lower]) has identifier [0] gives the commission-not-found
    failure. *)
Theorem zero_identifier_reported_not_found (request : CaseSearchRequest)
    (search_type : Z) (log : list Event) :
  (forall resp log1 l1 e l2,
      get_states_and_commissions upstream jagriti_client log = (Return resp, log1) ->
      dir_data resp = (l1 ++ e :: l2)%list ->
      (forall e', In e' l1 ->
         str_upper (commissionNameEn e') <> str_upper (state request)) ->
      str_upper (commissionNameEn e) = str_upper (state request) ->
      commissionId e = 0 ->
      search_cases_by_type upstream request search_type log
      = (Raise (CaseServiceException
                  ("Case search failed: State '" ++ state request ++ "' not found")),
         log1))
  /\
  (forall sid log1 resp log2 l1 e l2,
      find_state_commission_id upstream jagriti_client (state request) log
        = (Return (Some sid), log1) ->
      sid <> 0 ->
      get_district_commissions upstream jagriti_client sid log1 = (Return resp, log2) ->
      dir_data resp = (l1 ++ e :: l2)%list ->
      (forall e', In e' l1 ->
         str_lower (commissionNameEn e') <> str_lower (commission request)) ->
      str_lower (commissionNameEn e) = str_lower (commission request) ->
      commissionId e = 0 ->
      search_cases_by_type upstream request search_type log
      = (Raise (CaseServiceException
                  ("Case search failed: Commission '" ++ commission request
                   ++ "' not found in state '" ++ state request ++ "'")),
         log2)).
Proof.
  split.
  - intros resp log1 l1 e l2 Hget Hdata Hl1 He Hid.
    pose proof (find_state_after_fetch jagriti_client (state request) _ _ _ Hget)
      as Hfind.
    assert (Hr : scan_states (str_upper (state request)) (dir_data resp) = Some 0).
    { apply (FirstMatch_functional str_upper (state request) (dir_data resp));
        [apply scan_states_first_match|].
      left. exists l1, e, l2. rewrite Hid. now repeat split. }
    rewrite Hr in Hfind.
    unfold search_cases_by_type, try_except, search_cases_body.
    unfold bind at 1. now rewrite Hfind.
  - intros sid log1 resp log2 l1 e l2 Hs Hsid Hget Hdata Hl1 He Hid.
    pose proof (find_district_after_fetch jagriti_client sid (commission request)
                  _ _ _ Hget) as Hfind.
    assert (Hr : scan_districts (commission request) (dir_data resp) = Some 0).
    { apply (FirstMatch_functional str_lower (commission request) (dir_data resp));
        [apply scan_districts_first_match|].
      left. exists l1, e, l2. rewrite Hid. now repeat split. }
    rewrite Hr in Hfind.
    unfold search_cases_by_type, try_except, search_cases_body.
    unfold bind at 1. rewrite Hs. unfold id_truthy at 1.
    apply Z.eqb_neq in Hsid. rewrite Hsid. cbn [negb].
    unfold bind at 1. now rewrite Hfind.
Qed.

(** *** What the endpoints let out *)

Lemma service_method_is_by_type (k : SearchKind) (request : CaseSearchRequest) :
  service_method upstream k request
  = search_cases_by_type upstream request (discriminant k).
Proof.
  destruct k; reflexivity.
Qed.

(** X18.  Whatever goes wrong, a search endpoint raises an [HTTPException]
    with status 404 or 500: no other exception leaves it. *)
Lemma endpoint_failures_are_http (k : SearchKind) (request : CaseSearchRequest)
    (log log' : list Event) (e : PyExn) :
  endpoint upstream k request log = (Raise e, log') ->
  exists code detail, e = HTTPException code detail /\ (code = 404 \/ code = 500).
Proof.
  unfold endpoint, try_except.
  destruct (service_method upstream k request log) as [[r|x] l]; [discriminate|].
  destruct x; try (intros H; inversion H; eauto).
  revert H. destruct (PyStr.contains _ _); intros H; inversion H; eauto.
Qed.

(** X16.  A state that is not in the fetched directory is answered 404
    with the state-not-found message, after the state fetch only. *)
Lemma state_not_found_is_404 (k : SearchKind) (request : CaseSearchRequest)
    (log log1 : list Event) :
  find_state_commission_id upstream jagriti_client (state request) log
    = (Return None, log1) ->
  endpoint upstream k request log
  = (Raise (HTTPException 404
              ("Case search failed: State '" ++ state request ++ "' not found")),
     log1).
Proof.
  intros Hs. unfold endpoint, try_except. rewrite service_method_is_by_type.
  unfold search_cases_by_type, try_except, search_cases_body.
  unfold bind at 1. rewrite Hs. unfold raise. cbn [str_exn].
  match goal with
  | |- context [PyStr.contains ?n ?h] => replace (PyStr.contains n h) with true
  end; [reflexivity|].
  symmetry. rewrite !lower_app.
  do 3 apply contains_app_r.
  change (PyStr.lower "' not found") with ("' " ++ "not found" ++ "").
  apply contains_app_l.
Qed.

(** X17.  A commission that is not in the directory of the resolved state
    is answered 404 with the commission-not-found message, after the two
    directory fetches and before any search is posted. *)
Lemma commission_not_found_is_404 (k : SearchKind) (request : CaseSearchRequest)
    (log log1 log2 : list Event) (sid : Z) :
  find_state_commission_id upstream jagriti_client (state request) log
    = (Return (Some sid), log1) ->
  sid <> 0 ->
  find_district_commission_id upstream jagriti_client sid (commission request) log1
    = (Return None, log2) ->
  endpoint upstream k request log
  = (Raise (HTTPException 404
              ("Case search failed: Commission '" ++ commission request
               ++ "' not found in state '" ++ state request ++ "'")),
     log2).
Proof.
  intros Hs Hsid Hd. unfold endpoint, try_except. rewrite service_method_is_by_type.
  unfold search_cases_by_type, try_except, search_cases_body.
  unfold bind at 1. rewrite Hs. unfold id_truthy.
  apply Z.eqb_neq in Hsid. rewrite Hsid. cbn [negb].
  unfold bind at 1. rewrite Hd. unfold raise. cbn [str_exn].
  match goal with
  | |- context [PyStr.contains ?n ?h] => replace (PyStr.contains n h) with true
  end; [reflexivity|].
  symmetry. rewrite !lower_app.
  do 3 apply contains_app_r.
  apply contains_app_keep.
  change (PyStr.lower "' not found in state '")
    with ("' " ++ "not found" ++ " in state '").
  apply contains_app_l.
Qed.

(** a body that fails validation is rejected with the collected errors and
    the log untouched: no network call has been made *)
Lemma validation_precedes_network (k : SearchKind) (raw : Requests.RawRequest)
    (errors : list string) (log : list Event) :
  Requests.validate raw = inl errors ->
  serve upstream k raw log = (Raise (RequestValidationError errors), log).
Proof.
  intros H. unfold serve. now rewrite H.
Qed.

End Orchestrator.

(** ** The transform *)

(** C6 (amended).  [_transform_case_detail] sets [document_link] to the base
    URL followed by [orderDocumentPath] when that path is present and not
    empty, leaves it absent when the record has no document path, and copies
    every other output field from the raw field it renames. *)
Theorem transform_document_link (c : JagritiCaseDetail) :
  (forall path,
      orderDocumentPath c = Some path -> path <> "" ->
      document_link (_transform_case_detail c)
      = Some (Settings.JAGRITI_BASE_URL ++ path))
  /\ (orderDocumentPath c = None -> document_link (_transform_case_detail c) = None)
  /\ case_number (_transform_case_detail c) = caseNumber c
  /\ case_stage (_transform_case_detail c) = caseStageName c
  /\ filing_date (_transform_case_detail c) = caseFilingDate c
  /\ complainant (_transform_case_detail c) = complainantName c
  /\ complainant_advocate (_transform_case_detail c) = complainantAdvocateName c
  /\ respondent (_transform_case_detail c) = respondentName c
  /\ respondent_advocate (_transform_case_detail c) = respondentAdvocateName c.
Proof.
  unfold _transform_case_detail; cbn.
  repeat split.
  - intros path Hp Hne. rewrite Hp. destruct path; [contradiction|reflexivity].
  - intros Hp. now rewrite Hp.
Qed.

(** C10.  A raw record whose [orderDocumentPath] is the empty string is
    transformed exactly like the same record without a document path: the
    output [document_link] is absent, not the base URL followed by nothing. *)
Theorem transform_empty_path_like_absent
    (caseNumber' complainantName' : string)
    (complainantAdvocateName' : option string) (respondentName' : string)
    (respondentAdvocateName' : option string) (caseFilingDate' : string)
    (orderDate' dateOfDisposal' : option string) (caseStageName' : string)
    (dailyOrderStatus' : bool) :
  let with_path p :=
    mkCaseDetail caseNumber' complainantName' complainantAdvocateName'
      respondentName' respondentAdvocateName' caseFilingDate' p
      orderDate' dateOfDisposal' caseStageName' dailyOrderStatus' in
  _transform_case_detail (with_path (Some ""))
  = _transform_case_detail (with_path None)
  /\ document_link (_transform_case_detail (with_path (Some ""))) = None
  /\ document_link (_transform_case_detail (with_path (Some "")))
     <> Some (Settings.JAGRITI_BASE_URL ++ "").
Proof.
  cbn. repeat split. discriminate.
Qed.

(** ** Request validation *)


(** a request is accepted only when both date fields pass their validators *)
Lemma validate_accepts_inv (raw : Requests.RawRequest) (request : CaseSearchRequest) :
  Requests.validate raw = inr request ->
  Requests.validate_date_format (Requests.raw_from_date raw)
    = inr (from_date request)
  /\ exists t,
       Requests.validate_date_format (Requests.raw_to_date raw) = inr t
       /\ Requests.to_date_must_be_after_from_date t (from_date request)
          = inr (to_date request).
Proof.
  unfold Requests.validate. cbv zeta.
  destruct (Requests.min_length_1 "state" _); [discriminate|].
  destruct (Requests.min_length_1 "commission" _); [discriminate|].
  destruct (Requests.min_length_1 "search_value" _); [discriminate|].
  destruct (Requests.validate_date_format (Requests.raw_from_date raw)) as [e|f];
    [discriminate|].
  destruct (Requests.validate_date_format (Requests.raw_to_date raw)) as [e|t];
    [discriminate|].
  destruct (Requests.to_date_must_be_after_from_date t f) as [e|t'] eqn:Ht;
    [discriminate|].
  intros H; inversion H; subst; cbn. split; [reflexivity|].
  exists t. now split.
Qed.

(** X20.  A request whose [to_date] is a calendar date strictly before its
    [from_date] is rejected, whatever its other fields. *)
Lemma to_before_from_rejected (raw : Requests.RawRequest) (f t : string)
    (fd td : Z * Z * Z) :
  Requests.raw_from_date raw = Some f ->
  Requests.raw_to_date raw = Some t ->
  Requests.strptime f = Some fd ->
  Requests.strptime t = Some td ->
  Requests.date_ltb td fd = true ->
  exists errors, Requests.validate raw = inl errors.
Proof.
  intros Hf Ht Hpf Hpt Hlt.
  destruct (Requests.validate raw) as [errors|request] eqn:Hv; [now exists errors|].
  exfalso. apply validate_accepts_inv in Hv. destruct Hv as (H1 & t' & H2 & H3).
  rewrite Hf in H1. rewrite Ht in H2.
  unfold Requests.validate_date_format in H1, H2. rewrite Hpf in H1. rewrite Hpt in H2.
  inversion H1 as [H1']. inversion H2; subst t'. rewrite <- H1' in H3.
  unfold Requests.to_date_must_be_after_from_date in H3.
  rewrite Hpf, Hpt, Hlt in H3. discriminate.
Qed.

(** X21.  A request whose [from_date] or [to_date] is an ASCII text that
    [strptime] refuses (no match, text left over, or not a calendar date)
    is rejected, whatever its other fields. *)
Lemma unparsable_date_rejected (raw : Requests.RawRequest) (d : string) :
  PyStr.is_ascii d = true ->
  Requests.strptime d = None ->
  Requests.raw_from_date raw = Some d \/ Requests.raw_to_date raw = Some d ->
  exists errors, Requests.validate raw = inl errors.
Proof.
  intros _ Hp H.
  destruct (Requests.validate raw) as [errors|request] eqn:Hv; [now exists errors|].
  exfalso. apply validate_accepts_inv in Hv. destruct Hv as (H1 & t' & H2 & _).
  destruct H as [H|H].
  - rewrite H in H1. unfold Requests.validate_date_format in H1.
    rewrite Hp in H1. discriminate.
  - rewrite H in H2. unfold Requests.validate_date_format in H2.
    rewrite Hp in H2. discriminate.
Qed.


(** * The properties on concrete upstream snapshots *)

Module ScenarioFacts.

Import Scenario MoreScenarios.

#[local] Existing Instance wire.

(** With the default of three attempts and an upstream whose first three
    calls time out and whose later calls are answered: three calls, the two
    delays 1 and 2 between them, and the timed-out exception. *)
Lemma make_request_retry_bound_default :
  (0 < max_retries jagriti_client)%nat
  /\ (forall i, (i < max_retries jagriti_client)%nat ->
        retryable (three_timeouts_then_ok
                     ([] ++ backoff_trace (call_event get_states_request) 0 (S i))%list)
        = true)
  /\ retryable (three_timeouts_then_ok
                  (backoff_trace (call_event get_states_request) 0 4)) = false
  /\ exists msg trace,
       _make_request three_timeouts_then_ok jagriti_client get_states_request []
       = (Raise (JagritiAPIException msg None None), ([] ++ trace)%list)
       /\ exhausted_message jagriti_client msg
       /\ trace = backoff_trace (call_event get_states_request) 0
                    (max_retries jagriti_client)
       /\ calls_in trace = max_retries jagriti_client
       /\ sleeps_in trace
          = map (fun attempt => 2 ^ Z.of_nat attempt)
                (seq 0 (max_retries jagriti_client - 1)).
Proof.
  assert (Hfail : forall i, (i < max_retries jagriti_client)%nat ->
            retryable (three_timeouts_then_ok
                         ([] ++ backoff_trace (call_event get_states_request) 0 (S i))%list)
            = true).
  { intros i Hi. change (max_retries jagriti_client) with 3%nat in Hi.
    destruct i as [|[|[|i]]]; [reflexivity..|lia]. }
  split; [exact (Nat.lt_0_succ 2)|]. split; [exact Hfail|]. split; [reflexivity|].
  apply (make_request_retry_bound three_timeouts_then_ok jagriti_client
           get_states_request []).
  - exact (Nat.lt_0_succ 2).
  - exact Hfail.
Defined.

(** Three consecutive timeouts do not give the delays 1, 2, 4: after the
    third attempt the code raises without sleeping. *)
Lemma retry_delays_are_not_1_2_4 :
  calls_in (snd (_make_request always_timeout jagriti_client get_states_request [])) = 3%nat
  /\ sleeps_in (snd (_make_request always_timeout jagriti_client get_states_request []))
     = [1; 2]
  /\ sleeps_in (snd (_make_request always_timeout jagriti_client get_states_request []))
     <> [1; 2; 4].
Proof.
  repeat split. discriminate.
Qed.

(** C2 (the code departs from the claim).  A 404 answered with an HTML page:
    [_make_request] stops after the one call, but what it raises is the JSON
    decoding error from inside the handler, which carries neither the status
    code nor the body. *)
Theorem http_error_with_html_body :
  _make_request html_404 jagriti_client get_states_request []
  = (Raise (OtherException "Expecting value: line 1 column 1 (char 0)"),
     [get_states_event])
  /\ forall msg code body,
       fst (_make_request html_404 jagriti_client get_states_request [])
       <> Raise (JagritiAPIException msg (Some code) body).
Proof.
  split; [reflexivity|]. intros msg code body. discriminate.
Qed.

(** C5 (the code departs from the claim).  A 404 from upstream whose JSON
    body says [Not Found] is an HTTP failure, not a failed resolution, yet
    the endpoint answers it with status 404: the text of the upstream body
    is part of the message that is searched for [not found]. *)
Theorem upstream_404_answered_as_not_found :
  find_state_commission_id json_404 jagriti_client (state reddy_request) []
  = (Raise (JagritiAPIException
              ("Failed to find state commission ID: "
               ++ "Failed to fetch states and commissions: HTTP 404 error: "
               ++ json_404_text) None None),
     [get_states_event])
  /\ endpoint json_404 CaseNumber reddy_request []
     = (Raise (HTTPException 404
                 ("External API error: Failed to find state commission ID: "
                  ++ "Failed to fetch states and commissions: HTTP 404 error: "
                  ++ json_404_text)),
        [get_states_event]).
Proof.
  split.
  - reflexivity.
  - unfold endpoint, try_except. reflexivity.
Qed.

(** A present but empty document path does not give the base URL followed by
    the path. *)
Lemma empty_path_gives_no_link :
  orderDocumentPath case_with_empty_path = Some ""
  /\ document_link (_transform_case_detail case_with_empty_path)
     <> Some (Settings.JAGRITI_BASE_URL ++ "").
Proof.
  split; [reflexivity|discriminate].
Qed.

Lemma transform_document_link_sample :
  (orderDocumentPath case_with_document = Some "/docs/x.pdf" /\ "/docs/x.pdf" <> "")
  /\ document_link (_transform_case_detail case_with_document)
     = Some (Settings.JAGRITI_BASE_URL ++ "/docs/x.pdf")
  /\ orderDocumentPath case_without_document = None
  /\ document_link (_transform_case_detail case_without_document) = None.
Proof.
  split; [split; [reflexivity|discriminate]|].
  split.
  - apply (proj1 (transform_document_link case_with_document));
      [reflexivity|discriminate].
  - split; [reflexivity|].
    apply (proj1 (proj2 (transform_document_link case_without_document))).
    reflexivity.
Defined.

(** C7 (the code departs from the claim).  [2025-1-5] is not in YYYY-MM-DD
    form, yet the request is accepted and the date goes out to the upstream
    as it was written. *)
Theorem lenient_date_accepted :
  Requests.validate (raw_reddy (Some "2025-1-5") None)
  = inr (mkRequest "KARNATAKA" "Bangalore 1st & Rural Additional" "REDDY"
           (Some "2025-1-5") None)
  /\ nth_error (snd (serve snapshot Complainant (raw_reddy (Some "2025-1-5") None) []))
       2
     = Some (EvPost Settings.ENDPOINT_case_search
               (Some (mkPayload 15290525 1 "2025-1-5" "2025-09-03" "" 1 2 "REDDY"))).
Proof.
  split; reflexivity.
Qed.

(** lower-case input against the upper-case state entry, upper-case input
    against the mixed-case district entry *)
Lemma resolve_first_match_sample :
  (find_state_commission_id snapshot jagriti_client "karnataka" []
   = (Return (Some 11290000), [get_states_event])
   /\ FirstMatch str_upper "karnataka" states (Some 11290000))
  /\ (find_district_commission_id snapshot jagriti_client 11290000
        "BANGALORE URBAN" [get_states_event]
      = (Return (Some 11290525), [get_states_event; get_districts_event 11290000])
      /\ FirstMatch str_lower "BANGALORE URBAN" districts (Some 11290525)).
Proof.
  split.
  - destruct (proj1 (resolve_first_match snapshot jagriti_client "karnataka" 0 [])
                (mkDirectoryResponse states "ok" "false" 200) [get_states_event]
                eq_refl) as (r & Hfind & Hfirst).
    vm_compute in Hfind. inversion Hfind; subst r.
    split; [reflexivity|exact Hfirst].
  - destruct (proj2 (resolve_first_match snapshot jagriti_client "BANGALORE URBAN"
                       11290000 [get_states_event])
                (mkDirectoryResponse districts "ok" "false" 200)
                [get_states_event; get_districts_event 11290000]
                eq_refl) as (r & Hfind & Hfirst).
    vm_compute in Hfind. inversion Hfind; subst r.
    split; [reflexivity|exact Hfirst].
Defined.

(** the end-to-end scenario: KARNATAKA, Bangalore 1st & Rural Additional,
    REDDY, by complainant *)
Lemma search_payload_of_kind_sample :
  nth_error (snd (service_method snapshot Complainant reddy_request [])) 2
  = Some (EvPost Settings.ENDPOINT_case_search
            (Some (mkPayload 15290525 1 "2025-01-01" "2025-09-03" "" 1 2 "REDDY"))).
Proof.
  apply (search_payload_of_kind snapshot Complainant reddy_request []
           [get_states_event] [get_states_event; get_districts_event 11290000]
           11290000 15290525).
  - reflexivity.
  - discriminate.
  - reflexivity.
  - discriminate.
Defined.

Lemma search_result_shape_sample :
  search_cases_by_type snapshot reddy_request 2 [] = (Return reddy_result, reddy_log)
  /\ exists sid did log1 log2 from_date' to_date' upstream_response,
       find_state_commission_id snapshot jagriti_client (state reddy_request) []
         = (Return (Some sid), log1)
       /\ find_district_commission_id snapshot jagriti_client sid
            (commission reddy_request) log1
          = (Return (Some did), log2)
       /\ from_date' = Settings.DEFAULT_FROM_DATE
       /\ to_date' = Settings.DEFAULT_TO_DATE
       /\ search_cases snapshot jagriti_client
            (jagriti_request_of reddy_request 2 did from_date' to_date') log2
          = (Return upstream_response, reddy_log)
       /\ List.length (cases reddy_result) = List.length (cs_data upstream_response)
       /\ (forall i, nth_error (cases reddy_result) i
                     = option_map _transform_case_detail
                         (nth_error (cs_data upstream_response) i))
       /\ total_count reddy_result = Z.of_nat (List.length (cases reddy_result))
       /\ search_criteria reddy_result
          = [ ("state", PStr (state reddy_request));
              ("commission", PStr (commission reddy_request));
              ("search_value", PStr (search_value reddy_request));
              ("search_type", PInt 2);
              ("from_date", PStr from_date');
              ("to_date", PStr to_date');
              ("state_commission_id", PInt sid);
              ("district_commission_id", PInt did) ].
Proof.
  split; [reflexivity|].
  apply (search_result_shape snapshot reddy_request 2 [] reddy_log reddy_result).
  reflexivity.
Defined.

Lemma zero_identifier_reported_not_found_sample :
  search_cases_by_type snapshot_zero_state reddy_request 2 []
  = (Raise (CaseServiceException "Case search failed: State 'KARNATAKA' not found"),
     [get_states_event])
  /\ search_cases_by_type snapshot_zero_district reddy_request 2 []
     = (Raise (CaseServiceException
                 ("Case search failed: Commission 'Bangalore 1st & Rural Additional'"
                  ++ " not found in state 'KARNATAKA'")),
        [get_states_event; get_districts_event 11290000]).
Proof.
  split.
  - apply (proj1 (zero_identifier_reported_not_found snapshot_zero_state
                    reddy_request 2 [])
             (mkDirectoryResponse [zero_state] "ok" "false" 200)
             [get_states_event] [] zero_state []).
    + reflexivity.
    + reflexivity.
    + intros e' [].
    + reflexivity.
    + reflexivity.
  - apply (proj2 (zero_identifier_reported_not_found snapshot_zero_district
                    reddy_request 2 [])
             11290000 [get_states_event]
             (mkDirectoryResponse
                [ mkCommission 11290525 "Bangalore Urban" false true;
                  zero_district;
                  mkCommission 15290525 "Bangalore 1st & Rural Additional" false true ]
                "ok" "false" 200)
             [get_states_event; get_districts_event 11290000]
             [ mkCommission 11290525 "Bangalore Urban" false true ]
             zero_district
             [ mkCommission 15290525 "Bangalore 1st & Rural Additional" false true ]).
    + reflexivity.
    + discriminate.
    + reflexivity.
    + reflexivity.
    + intros e' [<-|[]]. cbn. discriminate.
    + reflexivity.
    + reflexivity.
Defined.

End ScenarioFacts.

(** * Further properties of the code *)

(** ** The retry loop under an arbitrary upstream *)

Section RetrySchedule.

Context {W : Wire}.
Variable upstream : Upstream.

Lemma backoff_trace_step (ev : Event) (a n : nat) :
  backoff_trace ev a (S (S n))
  = ev :: EvSleep (2 ^ Z.of_nat a) :: backoff_trace ev (S a) (S n).
Proof.
  reflexivity.
Qed.

Lemma make_request_loop_schedule (self : JagritiAPIClient) (req : Request) :
  forall m a log,
    (a + m = max_retries self)%nat ->
    exists n,
      (n <= m)%nat /\ (0 < m -> 0 < n)%nat
      /\ snd (make_request_loop upstream self req (seq a m) log)
         = (log ++ backoff_trace (call_event req) a n)%list.
Proof.
  induction m as [|m IH]; intros a log Ha.
  - exists 0%nat. cbn. rewrite app_nil_r. repeat split; lia.
  - cbn [seq make_request_loop]. unfold bind at 1. unfold perform.
    assert (Hstop : forall res : PyResult (option Json),
      exists n, (n <= S m)%nat /\ (0 < S m -> 0 < n)%nat
        /\ snd (res, (log ++ [call_event req])%list)
           = (log ++ backoff_trace (call_event req) a n)%list).
    { intros res. exists 1%nat. repeat split; lia. }
    assert (Hretry : (Z.of_nat a =? Z.of_nat (max_retries self) - 1) = false ->
      exists n, (n <= S m)%nat /\ (0 < S m -> 0 < n)%nat
        /\ snd (bind (sleep (2 ^ Z.of_nat a))
                  (fun _ => make_request_loop upstream self req (seq (S a) m))
                  (log ++ [call_event req])%list)
           = (log ++ backoff_trace (call_event req) a n)%list).
    { intros Hne. apply Z.eqb_neq in Hne.
      destruct (IH (S a) ((log ++ [call_event req]) ++ [EvSleep (2 ^ Z.of_nat a)])%list)
        as (n & Hn & Hpos & Htr); [lia|].
      destruct n as [|n]; [lia|].
      exists (S (S n)). split; [lia|]. split; [lia|].
      unfold bind, sleep, emit. rewrite Htr, backoff_trace_step.
      now rewrite <- !app_assoc. }
    destruct (upstream (log ++ [call_event req])%list) as [msg|msg|r|msg].
    + destruct (Z.of_nat a =? _) eqn:E; [apply Hstop|now apply Hretry].
    + destruct (Z.of_nat a =? _) eqn:E; [apply Hstop|now apply Hretry].
    + destruct (is_success r); [destruct (resp_json r); apply Hstop|].
      destruct (PyStr.truthy (resp_text r)); [destruct (resp_json r)|]; apply Hstop.
    + apply Hstop.
Qed.

(** X1.  Whatever the upstream does, the events [_make_request] adds to the
    log are an initial part of the backoff schedule: [n] attempts of the
    same call with a sleep of [2 ^ index] between consecutive attempts,
    where [n] is at most [max_retries] and at least one when the client
    allows an attempt.  Nothing already in the log is touched. *)
Theorem make_request_follows_schedule (self : JagritiAPIClient) (req : Request)
    (log : list Event) :
  exists n,
    (n <= max_retries self)%nat
    /\ (0 < max_retries self -> 0 < n)%nat
    /\ snd (_make_request upstream self req log)
       = (log ++ backoff_trace (call_event req) 0 n)%list
    /\ calls_in (backoff_trace (call_event req) 0 n) = n
    /\ sleeps_in (backoff_trace (call_event req) 0 n)
       = map (fun attempt => 2 ^ Z.of_nat attempt) (seq 0 (n - 1)).
Proof.
  destruct (make_request_loop_schedule self req (max_retries self) 0%nat log)
    as (n & Hn & Hpos & Htr); [reflexivity|].
  exists n. repeat split; try assumption.
  - apply calls_in_backoff_trace, call_event_is_call.
  - apply sleeps_in_backoff_trace, call_event_is_call.
Qed.

Lemma make_request_loop_recovers (self : JagritiAPIClient) (req : Request)
    (r : HttpResponse) (j : Json) :
  is_success r = true ->
  resp_json r = inr j ->
  forall k m a log,
    (a + m = max_retries self)%nat ->
    (k < m)%nat ->
    (forall i, (i < k)%nat ->
       retryable (upstream (log ++ backoff_trace (call_event req) a (S i))%list) = true) ->
    upstream (log ++ backoff_trace (call_event req) a (S k))%list = Responded r ->
    make_request_loop upstream self req (seq a m) log
    = (Return (Some j), (log ++ backoff_trace (call_event req) a (S k))%list).
Proof.
  intros Hs Hj. induction k as [|k IH]; intros m a log Ha Hk Hfail Hok.
  - destruct m as [|m]; [lia|].
    cbn [seq make_request_loop]. unfold bind, perform.
    cbn [backoff_trace] in Hok. now rewrite Hok, Hs, Hj.
  - destruct m as [|m]; [lia|].
    cbn [seq make_request_loop]. unfold bind at 1. unfold perform.
    pose proof (Hfail 0%nat ltac:(lia)) as H0. cbn [backoff_trace] in H0.
    assert (Hne : (Z.of_nat a =? Z.of_nat (max_retries self) - 1) = false)
      by (apply Z.eqb_neq; lia).
    assert (Hrec :
      bind (sleep (2 ^ Z.of_nat a))
        (fun _ => make_request_loop upstream self req (seq (S a) m))
        (log ++ [call_event req])%list
      = (Return (Some j),
         (log ++ backoff_trace (call_event req) a (S (S k)))%list)).
    { unfold bind, sleep, emit.
      rewrite (IH m (S a) ((log ++ [call_event req]) ++ [EvSleep (2 ^ Z.of_nat a)])%list).
      - rewrite backoff_trace_step. now rewrite <- !app_assoc.
      - lia.
      - lia.
      - intros i Hi. specialize (Hfail (S i) ltac:(lia)).
        rewrite backoff_trace_step in Hfail.
        now rewrite <- !app_assoc.
      - rewrite backoff_trace_step in Hok. now rewrite <- !app_assoc. }
    destruct (upstream (log ++ [call_event req])%list) as [msg|msg|r'|msg];
      try discriminate; rewrite Hne; exact Hrec.
Qed.

(** X2.  Recovery: when the first [k] attempts fail in transport, fewer than
    [max_retries] of them, and the next attempt is answered with a 2xx
    response whose body decodes, [_make_request] returns that body after
    exactly [k + 1] calls and the sleeps [2^0 .. 2^(k-1)]. *)
Theorem make_request_recovers (self : JagritiAPIClient) (req : Request)
    (log : list Event) (k : nat) (r : HttpResponse) (j : Json) :
  (k < max_retries self)%nat ->
  (forall i, (i < k)%nat ->
     retryable (upstream (log ++ backoff_trace (call_event req) 0 (S i))%list) = true) ->
  upstream (log ++ backoff_trace (call_event req) 0 (S k))%list = Responded r ->
  is_success r = true ->
  resp_json r = inr j ->
  _make_request upstream self req log
  = (Return (Some j), (log ++ backoff_trace (call_event req) 0 (S k))%list)
  /\ calls_in (backoff_trace (call_event req) 0 (S k)) = S k
  /\ sleeps_in (backoff_trace (call_event req) 0 (S k))
     = map (fun attempt => 2 ^ Z.of_nat attempt) (seq 0 k).
Proof.
  intros Hk Hfail Hok Hs Hj. split; [|split].
  - unfold _make_request.
    now apply (make_request_loop_recovers self req r j Hs Hj k (max_retries self) 0%nat).
  - apply calls_in_backoff_trace, call_event_is_call.
  - rewrite sleeps_in_backoff_trace by apply call_event_is_call.
    now replace (S k - 1)%nat with k by lia.
Qed.

(** X3.  Only timeouts and transport failures are retried: when an attempt
    ends in anything else, the loop ends with that call, whatever the
    attempt index and however many attempts remain.  It returns the decoded
    body when the response is a 2xx whose body decodes, and it raises in
    every other case: the [Unexpected error] exception for a 2xx whose body
    does not decode and for any other exception of the call, and an
    exception (never a return) for every response outside 2xx. *)
Theorem only_transport_failures_retried (self : JagritiAPIClient) (req : Request)
    (attempt : nat) (rest : list nat) (log : list Event) :
  retryable (upstream (log ++ [call_event req])%list) = false ->
  exists res,
    make_request_loop upstream self req (attempt :: rest) log
    = (res, (log ++ [call_event req])%list)
    /\ (forall r j,
          upstream (log ++ [call_event req])%list = Responded r ->
          is_success r = true -> resp_json r = inr j ->
          res = Return (Some j))
    /\ (forall r m,
          upstream (log ++ [call_event req])%list = Responded r ->
          is_success r = true -> resp_json r = inl m ->
          res = Raise (JagritiAPIException ("Unexpected error: " ++ m) None None))
    /\ (forall r,
          upstream (log ++ [call_event req])%list = Responded r ->
          is_success r = false ->
          exists e, res = Raise e)
    /\ (forall m,
          upstream (log ++ [call_event req])%list = OtherFailure m ->
          res = Raise (JagritiAPIException ("Unexpected error: " ++ m) None None))
    /\ ((exists v, res = Return v)
        -> exists r j, upstream (log ++ [call_event req])%list = Responded r
                       /\ is_success r = true /\ resp_json r = inr j
                       /\ res = Return (Some j)).
Proof.
  intros Hnr. cbn [make_request_loop]. unfold bind, perform.
  destruct (upstream (log ++ [call_event req])%list) as [msg|msg|r|msg];
    try discriminate.
  - destruct (is_success r) eqn:Hs.
    + destruct (resp_json r) as [m|j] eqn:Hj; eexists; (split; [reflexivity|]);
        (split; [intros r' j' Hr _ Hj'; inversion Hr; subst r'; congruence|]);
        (split; [intros r' m' Hr _ Hj'; inversion Hr; subst r'; congruence|]);
        (split; [intros r' Hr Hs'; inversion Hr; subst r'; congruence|]);
        (split; [intros m' Hr; discriminate|]).
      * intros [v Hv]. discriminate.
      * intros _. exists r, j. now repeat split.
    + destruct (PyStr.truthy (resp_text r)); [destruct (resp_json r)|];
        eexists; (split; [reflexivity|]);
        (split; [intros r' j' Hr Hs' _; inversion Hr; subst r'; congruence|]);
        (split; [intros r' m' Hr Hs' _; inversion Hr; subst r'; congruence|]);
        (split; [intros r' Hr _; eexists; reflexivity|]);
        (split; [intros m' Hr; discriminate|]);
        intros [v Hv]; discriminate.
  - eexists. split; [reflexivity|].
    split; [intros r' j' Hr; discriminate|].
    split; [intros r' m' Hr; discriminate|].
    split; [intros r' Hr; discriminate|].
    split; [intros m' Hr; inversion Hr; reflexivity|].
    intros [v Hv]; discriminate.
Qed.

End RetrySchedule.

(** ** Sorting by a string key *)

Lemma ascii_compare_refl (x : ascii) : Ascii.compare x x = Eq.
Proof.
  unfold Ascii.compare. apply N.compare_refl.
Qed.

Lemma ascii_compare_lt_trans (x y z : ascii) :
  Ascii.compare x y = Lt -> Ascii.compare y z = Lt -> Ascii.compare x z = Lt.
Proof.
  unfold Ascii.compare. rewrite !N.compare_lt_iff. lia.
Qed.

Lemma string_compare_refl (a : string) : String.compare a a = Eq.
Proof.
  induction a as [|x a IH]; simpl; [reflexivity|].
  now rewrite ascii_compare_refl.
Qed.

Lemma string_compare_lt_trans (a b c : string) :
  String.compare a b = Lt -> String.compare b c = Lt -> String.compare a c = Lt.
Proof.
  revert b c. induction a as [|x a IH]; intros [|y b] [|z c]; simpl;
    try discriminate; try reflexivity.
  destruct (Ascii.compare x y) eqn:Exy, (Ascii.compare y z) eqn:Eyz;
    try discriminate; intros Hab Hbc.
  - apply Ascii.compare_eq_iff in Exy, Eyz. subst.
    rewrite ascii_compare_refl. now apply (IH b c).
  - apply Ascii.compare_eq_iff in Exy. subst. now rewrite Eyz.
  - apply Ascii.compare_eq_iff in Eyz. subst. now rewrite Exy.
  - now rewrite (ascii_compare_lt_trans x y z).
Qed.

Lemma ltb_lt (a b : string) : String.ltb a b = true <-> String.compare a b = Lt.
Proof.
  unfold String.ltb. destruct (String.compare a b); split; congruence.
Qed.

Lemma ltb_irrefl_neq (a b : string) : String.ltb a b = true -> a <> b.
Proof.
  intros H ->. apply ltb_lt in H. rewrite string_compare_refl in H. discriminate.
Qed.

Lemma ltb_asym (a b : string) : String.ltb a b = true -> String.ltb b a = false.
Proof.
  intros H. apply ltb_lt in H. unfold String.ltb.
  rewrite String.compare_antisym, H. reflexivity.
Qed.

Lemma str_le_refl (a : string) : str_le a a.
Proof.
  unfold str_le, String.ltb. now rewrite string_compare_refl.
Qed.

Lemma str_le_antisym (a b : string) : str_le a b -> str_le b a -> a = b.
Proof.
  unfold str_le, String.ltb. intros Hab Hba.
  rewrite String.compare_antisym in Hab.
  destruct (String.compare a b) eqn:E; try discriminate.
  now apply String.compare_eq_iff.
Qed.

Lemma str_le_trans (a b c : string) : str_le a b -> str_le b c -> str_le a c.
Proof.
  unfold str_le. intros Hab Hbc.
  destruct (String.ltb c a) eqn:Hca; [exfalso|reflexivity].
  apply ltb_lt in Hca.
  destruct (String.compare a b) eqn:E.
  - apply String.compare_eq_iff in E. subst b.
    apply ltb_lt in Hca. congruence.
  - assert (H : String.ltb c b = true)
      by (apply ltb_lt; now apply (string_compare_lt_trans c a b)).
    congruence.
  - assert (H : String.ltb b a = true).
    { apply ltb_lt. rewrite String.compare_antisym, E. reflexivity. }
    congruence.
Qed.

Section SortBy.

Context {A : Type}.
Variable key : A -> string.

Lemma insert_by_perm (x : A) (l : list A) : Permutation (x :: l) (insert_by key x l).
Proof.
  induction l as [|y r IH]; simpl; [reflexivity|].
  destruct (String.ltb (key y) (key x)); [|reflexivity].
  rewrite perm_swap. now apply perm_skip.
Qed.

Lemma sort_by_perm (l : list A) : Permutation l (sort_by key l).
Proof.
  induction l as [|x r IH]; simpl; [reflexivity|].
  rewrite <- insert_by_perm. now apply perm_skip.
Qed.

Lemma insert_by_sorted (x : A) (l : list A) :
  sorted_by key l -> sorted_by key (insert_by key x l).
Proof.
  unfold sorted_by. induction l as [|y r IH]; intros Hs; simpl.
  - constructor; constructor.
  - apply StronglySorted_inv in Hs. destruct Hs as [Hr Hy].
    destruct (String.ltb (key y) (key x)) eqn:E.
    + constructor; [now apply IH|].
      apply (Permutation_Forall (insert_by_perm x r)).
      constructor; [now apply ltb_asym|exact Hy].
    + constructor; [constructor; assumption|].
      constructor; [exact E|].
      eapply Forall_impl; [|exact Hy].
      intros z Hz. cbv beta in *. now apply (str_le_trans (key x) (key y) (key z)).
Qed.

Lemma sort_by_sorted (l : list A) : sorted_by key (sort_by key l).
Proof.
  induction l as [|x r IH]; simpl; [constructor|].
  now apply insert_by_sorted.
Qed.

Lemma insert_by_with_key (k : string) (x : A) (l : list A) :
  with_key key k (insert_by key x l) = with_key key k (x :: l).
Proof.
  unfold with_key. induction l as [|y r IH]; [reflexivity|].
  cbn [insert_by]. destruct (String.ltb (key y) (key x)) eqn:E; [|reflexivity].
  cbn [filter] in *. rewrite IH.
  destruct (String.eqb_spec (key x) k) as [Hx|Hx]; [|reflexivity].
  destruct (String.eqb_spec (key y) k) as [Hy|Hy]; [|reflexivity].
  exfalso. apply (ltb_irrefl_neq _ _ E). congruence.
Qed.

Lemma sort_by_with_key (k : string) (l : list A) :
  with_key key k (sort_by key l) = with_key key k l.
Proof.
  induction l as [|x r IH]; [reflexivity|].
  cbn [sort_by]. rewrite insert_by_with_key.
  unfold with_key in *. cbn [filter]. now rewrite IH.
Qed.

Lemma with_key_head (x : A) (l : list A) :
  with_key key (key x) (x :: l) = x :: with_key key (key x) l.
Proof.
  unfold with_key. cbn [filter]. now rewrite String.eqb_refl.
Qed.

Lemma with_key_In (k : string) (x : A) (l : list A) :
  In x (with_key key k l) -> In x l.
Proof.
  unfold with_key. intros H. now apply filter_In in H.
Qed.

(** two lists with non-decreasing keys and the same elements, in the same
    order, under every key are the same list *)
Lemma sorted_stable_unique (l1 l2 : list A) :
  sorted_by key l1 -> sorted_by key l2 ->
  (forall k, with_key key k l1 = with_key key k l2) ->
  l1 = l2.
Proof.
  unfold sorted_by. revert l2. induction l1 as [|x l1 IH]; intros l2 H1 H2 Hk.
  - destruct l2 as [|y l2]; [reflexivity|].
    specialize (Hk (key y)). rewrite with_key_head in Hk. discriminate.
  - destruct l2 as [|y l2].
    + specialize (Hk (key x)). rewrite with_key_head in Hk. discriminate.
    + apply StronglySorted_inv in H1, H2.
      destruct H1 as [H1 Hx], H2 as [H2 Hy].
      assert (Hxy : str_le (key y) (key x)).
      { assert (Hin : In x (y :: l2)).
        { apply (with_key_In (key x)). rewrite <- Hk, with_key_head. now left. }
        destruct Hin as [<-|Hin]; [apply str_le_refl|].
        rewrite Forall_forall in Hy. now apply Hy. }
      assert (Hyx : str_le (key x) (key y)).
      { assert (Hin : In y (x :: l1)).
        { apply (with_key_In (key y)). rewrite Hk, with_key_head. now left. }
        destruct Hin as [<-|Hin]; [apply str_le_refl|].
        rewrite Forall_forall in Hx. now apply Hx. }
      assert (Heq : key x = key y) by now apply str_le_antisym.
      pose proof (Hk (key x)) as Hkx.
      rewrite with_key_head in Hkx. rewrite Heq in Hkx at 2.
      rewrite with_key_head in Hkx. inversion Hkx as [[Hxy' Htl]]. subst y.
      f_equal. apply IH; try assumption.
      intros k. specialize (Hk k). unfold with_key in *. cbn [filter] in Hk.
      destruct (String.eqb (key x) k); [now inversion Hk|exact Hk].
Qed.

(** X4.  The listing order: [sort_by] rearranges the list it is given
    (nothing added, dropped or duplicated), leaves the keys non-decreasing,
    and keeps elements with equal keys in the order they had.  It is the
    only list with the last two properties, so it is what a stable sort
    returns. *)
Theorem sort_by_is_the_stable_sort (l : list A) :
  Permutation l (sort_by key l)
  /\ sorted_by key (sort_by key l)
  /\ (forall k, with_key key k (sort_by key l) = with_key key k l)
  /\ (forall l',
        sorted_by key l' ->
        (forall k, with_key key k l' = with_key key k l) ->
        l' = sort_by key l).
Proof.
  split; [apply sort_by_perm|]. split; [apply sort_by_sorted|].
  split; [intros k; apply sort_by_with_key|].
  intros l' Hs Hk. apply sorted_stable_unique; [exact Hs|apply sort_by_sorted|].
  intros k. now rewrite sort_by_with_key.
Qed.

End SortBy.

(** ** The reverse lookup and the directory endpoints *)

Lemma scan_states_In {W : Wire} (name_upper : string) (l : list JagritiCommission)
    (id : Z) :
  scan_states name_upper l = Some id -> In id (map commissionId l).
Proof.
  induction l as [|e r IH]; simpl; [discriminate|].
  destruct (String.eqb _ _); [intros H; inversion H; now left|].
  intros H. right. now apply IH.
Qed.

(** in a directory with pairwise distinct identifiers, the name stored under
    the identifier a name resolves to is that name as the state resolver
    compares names: equal after [str.upper] *)
Lemma scan_round_trip {W : Wire} (name : string) (l : list JagritiCommission) (id : Z) :
  NoDup (map commissionId l) ->
  scan_states (str_upper name) l = Some id ->
  exists n, scan_name_by_id id l = Some n /\ str_upper n = str_upper name.
Proof.
  induction l as [|e r IH]; simpl; [discriminate|].
  intros Hnd Hscan. inversion Hnd as [|x xs Hnotin Hnd']; subst.
  destruct (String.eqb_spec (str_upper (commissionNameEn e)) (str_upper name))
    as [E|N].
  - inversion Hscan; subst id. rewrite Z.eqb_refl.
    exists (commissionNameEn e). split; [reflexivity|exact E].
  - destruct (Z.eqb_spec (commissionId e) id) as [Eid|Nid].
    + exfalso. apply Hnotin. rewrite Eid. now apply (scan_states_In (str_upper name)).
    + now apply IH.
Qed.

Lemma collect_states_In (l : list JagritiCommission) (s : StateCommission.t) :
  In s (Utilities.collect_states l)
  <-> exists e, In e l /\ activeStatus e = true
                /\ circuitAdditionBenchStatus e = false
                /\ s = StateCommission.mk (commissionId e) (commissionNameEn e)
                         true false.
Proof.
  induction l as [|e r IH]; simpl.
  - split; [intros []|intros (e & [] & _)].
  - destruct (activeStatus e) eqn:Ha, (circuitAdditionBenchStatus e) eqn:Hc; simpl;
      rewrite ?IH; split.
    all: try (intros (x & Hin & Hx); exists x; split; [now right|exact Hx]).
    all: try (intros (x & [<-|Hin] & Hax & Hcx & Hs); [congruence|now exists x]).
    + intros [<-|(x & Hin & Hx)]; [exists e; repeat split; [now left|assumption..]|].
      exists x. split; [now right|exact Hx].
    + intros (x & [<-|Hin] & Hax & Hcx & ->); [now left|right; now exists x].
Qed.

Lemma collect_commissions_In (l : list JagritiCommission) (c : DistrictCommission.t) :
  In c (Utilities.collect_commissions l)
  <-> exists e, In e l /\ activeStatus e = true
                /\ c = DistrictCommission.mk (commissionId e) (commissionNameEn e) true.
Proof.
  induction l as [|e r IH]; simpl.
  - split; [intros []|intros (e & [] & _)].
  - destruct (activeStatus e) eqn:Ha; simpl; rewrite ?IH; split.
    + intros [<-|(x & Hin & Hx)]; [exists e; repeat split; [now left|assumption]|].
      exists x. split; [now right|exact Hx].
    + intros (x & [<-|Hin] & Hax & ->); [now left|right; now exists x].
    + intros (x & Hin & Hx). exists x. split; [now right|exact Hx].
    + intros (x & [<-|Hin] & Hax & Hs); [congruence|now exists x].
Qed.

Lemma collect_states_length (l : list JagritiCommission) :
  List.length (Utilities.collect_states l)
  = List.length (filter (fun e => activeStatus e && negb (circuitAdditionBenchStatus e)) l).
Proof.
  induction l as [|e r IH]; simpl; [reflexivity|].
  destruct (activeStatus e && negb (circuitAdditionBenchStatus e)); simpl; now rewrite IH.
Qed.

Lemma collect_commissions_length (l : list JagritiCommission) :
  List.length (Utilities.collect_commissions l) = List.length (filter activeStatus l).
Proof.
  induction l as [|e r IH]; simpl; [reflexivity|].
  destruct (activeStatus e); simpl; now rewrite IH.
Qed.

Section Directory.

Context {W : Wire}.
Variable upstream : Upstream.

(** what the three fetches and the three lookups of the client raise carries
    neither a status code nor a body, whatever the upstream answered *)
Lemma fetch_states_failure (self : JagritiAPIClient) (log log' : list Event) (e : PyExn) :
  get_states_and_commissions upstream self log = (Raise e, log') ->
  exists m, e = JagritiAPIException
                  ("Failed to fetch states and commissions: " ++ m) None None.
Proof.
  unfold get_states_and_commissions, try_except, bind.
  destruct (_make_request upstream self _ log) as [[j|x] l].
  - unfold construct. destruct (parse_states j); cbn; intros H; inversion H.
    eexists; reflexivity.
  - cbn. intros H; inversion H. eexists; reflexivity.
Qed.

Lemma fetch_districts_failure (self : JagritiAPIClient) (sid : Z)
    (log log' : list Event) (e : PyExn) :
  get_district_commissions upstream self sid log = (Raise e, log') ->
  exists m, e = JagritiAPIException
                  ("Failed to fetch district commissions: " ++ m) None None.
Proof.
  unfold get_district_commissions, try_except, bind.
  destruct (_make_request upstream self _ log) as [[j|x] l].
  - unfold construct. destruct (parse_districts j); cbn; intros H; inversion H.
    eexists; reflexivity.
  - cbn. intros H; inversion H. eexists; reflexivity.
Qed.

Lemma name_by_id_after_fetch (self : JagritiAPIClient) (id : Z)
    (log log' : list Event) (resp : JagritiDirectoryResponse) :
  get_states_and_commissions upstream self log = (Return resp, log') ->
  get_state_name_by_id upstream self id log
  = (Return (scan_name_by_id id (dir_data resp)), log').
Proof.
  intros H. unfold get_state_name_by_id, try_except, bind. now rewrite H.
Qed.

Lemma name_by_id_inv (self : JagritiAPIClient) (id : Z) (log log' : list Event)
    (res : PyResult (option string)) :
  get_state_name_by_id upstream self id log = (res, log') ->
  (exists resp,
      get_states_and_commissions upstream self log = (Return resp, log')
      /\ res = Return (scan_name_by_id id (dir_data resp)))
  \/ (exists m, res = Raise (JagritiAPIException
                               ("Failed to find state name: " ++ m) None None)).
Proof.
  unfold get_state_name_by_id, try_except, bind.
  destruct (get_states_and_commissions upstream self log) as [[resp|x] l];
    cbn; intros H; inversion H; subst.
  - left. now exists resp.
  - right. eexists; reflexivity.
Qed.

(** X5.  [get_state_name_by_id] returns the display name of the first entry
    of the fetched state directory whose identifier is the one asked for,
    whatever its status flags, and [None] when no entry has it. *)
Theorem state_name_by_id_first_match (self : JagritiAPIClient) (id : Z)
    (log log' : list Event) (resp : JagritiDirectoryResponse) :
  get_states_and_commissions upstream self log = (Return resp, log') ->
  exists r,
    get_state_name_by_id upstream self id log = (Return r, log')
    /\ ((exists l1 e l2,
            dir_data resp = (l1 ++ e :: l2)%list
            /\ commissionId e = id
            /\ (forall e', In e' l1 -> commissionId e' <> id)
            /\ r = Some (commissionNameEn e))
        \/ ((forall e, In e (dir_data resp) -> commissionId e <> id) /\ r = None)).
Proof.
  intros H. exists (scan_name_by_id id (dir_data resp)).
  split; [now apply name_by_id_after_fetch|].
  generalize (dir_data resp) as l. induction l as [|e r IH]; simpl.
  - right. split; [intros e []|reflexivity].
  - destruct (Z.eqb_spec (commissionId e) id) as [E|N].
    + left. exists [], e, r. repeat split; [exact E|intros e' []].
    + destruct IH as [(l1 & m & l2 & -> & Hm & Hl1 & ->)|[Hnone ->]].
      * left. exists (e :: l1), m, l2. repeat split; [exact Hm|].
        intros e' [<-|Hin]; [exact N|now apply Hl1].
      * right. split; [|reflexivity].
        intros e' [<-|Hin]; [exact N|now apply Hnone].
Qed.

(** X6.  Round trip through the directory: when the identifiers of the
    state directory are pairwise distinct and the upstream returns the same
    directory again, the name [get_state_name_by_id] gives for the
    identifier that [find_state_commission_id] resolved is the requested
    name as the resolver compares names: the two are equal after
    [str.upper]. *)
Theorem resolve_then_name_round_trip (self : JagritiAPIClient) (name : string)
    (id : Z) (log log1 log2 : list Event) (resp resp' : JagritiDirectoryResponse) :
  get_states_and_commissions upstream self log = (Return resp, log1) ->
  get_states_and_commissions upstream self log1 = (Return resp', log2) ->
  dir_data resp' = dir_data resp ->
  NoDup (map commissionId (dir_data resp)) ->
  find_state_commission_id upstream self name log = (Return (Some id), log1) ->
  exists n,
    get_state_name_by_id upstream self id log1 = (Return (Some n), log2)
    /\ str_upper n = str_upper name.
Proof.
  intros H1 H2 Hsame Hnd Hfind.
  rewrite (find_state_after_fetch upstream self name _ _ _ H1) in Hfind.
  inversion Hfind as [Hscan].
  destruct (scan_round_trip name (dir_data resp) id Hnd Hscan) as (n & Hn & Hci).
  exists n. split; [|exact Hci].
  rewrite (name_by_id_after_fetch self id _ _ _ H2), Hsame, Hn. reflexivity.
Qed.

(** X7.  A successful [/states] listing holds exactly the entries of the
    fetched directory that are active and not circuit benches, one output
    per such entry, in non-decreasing order of name with entries of equal
    name in upstream order; [total_count] is the length of the listing. *)
Theorem states_listing (log log' : list Event) (res : StatesResponse.t) :
  Utilities.get_states upstream log = (Return res, log') ->
  exists resp,
    get_states_and_commissions upstream jagriti_client log = (Return resp, log')
    /\ (forall s, In s (StatesResponse.states res)
                  <-> exists e, In e (dir_data resp)
                                /\ activeStatus e = true
                                /\ circuitAdditionBenchStatus e = false
                                /\ s = StateCommission.mk (commissionId e)
                                         (commissionNameEn e) true false)
    /\ List.length (StatesResponse.states res)
       = List.length (filter (fun e => activeStatus e
                                       && negb (circuitAdditionBenchStatus e))
                             (dir_data resp))
    /\ sorted_by StateCommission.name (StatesResponse.states res)
    /\ (forall k, with_key StateCommission.name k (StatesResponse.states res)
                  = with_key StateCommission.name k
                      (Utilities.collect_states (dir_data resp)))
    /\ StatesResponse.total_count res
       = Z.of_nat (List.length (StatesResponse.states res)).
Proof.
  unfold Utilities.get_states, try_except, bind.
  destruct (get_states_and_commissions upstream jagriti_client log)
    as [[resp|x] l] eqn:Hget.
  - unfold ret. intros H; inversion H; subst; clear H. exists resp.
    cbn [StatesResponse.states StatesResponse.total_count].
    split; [reflexivity|]. split.
    { intros s. rewrite <- collect_states_In. split; intros Hin.
      - eapply Permutation_in; [symmetry; apply sort_by_perm|exact Hin].
      - eapply Permutation_in; [apply sort_by_perm|exact Hin]. }
    split.
    { rewrite <- collect_states_length. symmetry.
      apply Permutation_length, sort_by_perm. }
    split; [apply sort_by_sorted|].
    split; [intros k; apply sort_by_with_key|reflexivity].
  - destruct x; unfold raise; intros H; discriminate.
Qed.

(** X8.  Whatever goes wrong in the [/states] listing, the endpoint raises
    an [HTTPException] with status 500: the status code of an upstream HTTP
    error is dropped by the client before the endpoint could pass it on. *)
Theorem states_listing_failure_is_500 (log log' : list Event) (e : PyExn) :
  Utilities.get_states upstream log = (Raise e, log') ->
  exists detail, e = HTTPException 500 detail.
Proof.
  unfold Utilities.get_states, try_except, bind.
  destruct (get_states_and_commissions upstream jagriti_client log)
    as [[resp|x] l] eqn:Hget; [unfold ret; discriminate|].
  destruct (fetch_states_failure _ _ _ _ Hget) as (m & ->).
  unfold raise. cbn [Utilities.status_code_or_500]. intros H; inversion H. eauto.
Qed.

End Directory.

Section CommissionListing.

Context {W : Wire}.
Variable upstream : Upstream.

(** X9.  A successful [/commissions/{state_id}] listing echoes the state
    identifier, names the state by the first entry of the state directory
    with that identifier (a non-empty name), and holds exactly the active
    entries of the district directory fetched for that identifier, circuit
    benches included, one output per such entry, in non-decreasing order of
    name with equal names in upstream order; [total_count] is the length. *)
Theorem commissions_listing (state_id : Z) (log log' : list Event)
    (res : DistrictCommissionsResponse.t) :
  Utilities.get_district_commissions upstream state_id log = (Return res, log') ->
  exists states_resp log1 resp,
    get_states_and_commissions upstream jagriti_client log = (Return states_resp, log1)
    /\ scan_name_by_id state_id (dir_data states_resp)
       = Some (DistrictCommissionsResponse.state_name res)
    /\ DistrictCommissionsResponse.state_name res <> ""
    /\ get_district_commissions upstream jagriti_client state_id log1
       = (Return resp, log')
    /\ DistrictCommissionsResponse.state_id res = state_id
    /\ (forall c, In c (DistrictCommissionsResponse.commissions res)
                  <-> exists e, In e (dir_data resp) /\ activeStatus e = true
                                /\ c = DistrictCommission.mk (commissionId e)
                                         (commissionNameEn e) true)
    /\ List.length (DistrictCommissionsResponse.commissions res)
       = List.length (filter activeStatus (dir_data resp))
    /\ sorted_by DistrictCommission.name (DistrictCommissionsResponse.commissions res)
    /\ (forall k, with_key DistrictCommission.name k
                    (DistrictCommissionsResponse.commissions res)
                  = with_key DistrictCommission.name k
                      (Utilities.collect_commissions (dir_data resp)))
    /\ DistrictCommissionsResponse.total_count res
       = Z.of_nat (List.length (DistrictCommissionsResponse.commissions res)).
Proof.
  unfold Utilities.get_district_commissions, try_except. unfold bind at 1.
  destruct (get_state_name_by_id upstream jagriti_client state_id log)
    as [[[name|]|x] log1] eqn:Hname.
  - destruct (name_by_id_inv upstream _ _ _ _ _ Hname)
      as [(states_resp & Hget & Hres)|(m & Hm)]; [|discriminate].
    inversion Hres as [Hscan].
    destruct name as [|c name]; [cbn; discriminate|].
    cbn [PyStr.opt_truthy PyStr.truthy negb]. unfold bind.
    destruct (get_district_commissions upstream jagriti_client state_id log1)
      as [[resp|x] log2] eqn:Hd.
    + cbn. intros H; inversion H; subst; clear H.
      exists states_resp, log1, resp.
      cbn [DistrictCommissionsResponse.state_name DistrictCommissionsResponse.state_id
           DistrictCommissionsResponse.commissions
           DistrictCommissionsResponse.total_count].
      split; [exact Hget|]. split; [now symmetry|]. split; [discriminate|].
      split; [exact Hd|]. split; [reflexivity|]. split.
      { intros d. rewrite <- collect_commissions_In. split; intros Hin.
        - eapply Permutation_in; [symmetry; apply sort_by_perm|exact Hin].
        - eapply Permutation_in; [apply sort_by_perm|exact Hin]. }
      split.
      { rewrite <- collect_commissions_length. symmetry.
        apply Permutation_length, sort_by_perm. }
      split; [apply sort_by_sorted|].
      split; [intros k; apply sort_by_with_key|reflexivity].
    + destruct x; cbn; discriminate.
  - cbn. discriminate.
  - destruct x; cbn; discriminate.
Qed.

(** X10.  When no entry of the state directory has the identifier asked for,
    or the first one that has it carries an empty name, the endpoint raises
    the 404 [State with commission ID ... not found] right after the state
    fetch: the district directory is not requested. *)
Theorem unknown_state_is_404 (state_id : Z) (log log1 : list Event)
    (states_resp : JagritiDirectoryResponse) :
  get_states_and_commissions upstream jagriti_client log = (Return states_resp, log1) ->
  scan_name_by_id state_id (dir_data states_resp) = None
  \/ scan_name_by_id state_id (dir_data states_resp) = Some "" ->
  Utilities.get_district_commissions upstream state_id log
  = (Raise (HTTPException 404
              ("State with commission ID " ++ PyStr.of_Z state_id ++ " not found")),
     log1).
Proof.
  intros Hget Hscan.
  unfold Utilities.get_district_commissions, try_except. unfold bind at 1.
  rewrite (name_by_id_after_fetch upstream _ state_id _ _ _ Hget).
  destruct Hscan as [-> | ->]; reflexivity.
Qed.

(** X11.  Whatever goes wrong in the commission listing, the endpoint raises
    an [HTTPException] whose status is 404 or 500, and it is 404 only when
    the state fetch succeeded and the lookup of the identifier gave no
    usable name; a failure of either upstream fetch is always a 500. *)
Theorem commissions_listing_failure (state_id : Z) (log log' : list Event) (e : PyExn) :
  Utilities.get_district_commissions upstream state_id log = (Raise e, log') ->
  exists code detail,
    e = HTTPException code detail
    /\ (code = 404 \/ code = 500)
    /\ (code = 404 ->
        exists states_resp,
          get_states_and_commissions upstream jagriti_client log
            = (Return states_resp, log')
          /\ PyStr.opt_truthy (scan_name_by_id state_id (dir_data states_resp)) = false).
Proof.
  unfold Utilities.get_district_commissions, try_except. unfold bind at 1.
  destruct (get_state_name_by_id upstream jagriti_client state_id log)
    as [[[name|]|x] log1] eqn:Hname.
  - destruct (name_by_id_inv upstream _ _ _ _ _ Hname)
      as [(states_resp & Hget & Hres)|(m & Hm)]; [|discriminate].
    inversion Hres as [Hscan].
    destruct name as [|c name].
    + cbn. intros H; inversion H; subst. do 2 eexists.
      split; [reflexivity|]. split; [now left|]. intros _.
      exists states_resp. split; [exact Hget|]. now rewrite <- Hscan.
    + cbn [PyStr.opt_truthy PyStr.truthy negb]. unfold bind.
      destruct (get_district_commissions upstream jagriti_client state_id log1)
        as [[resp|x] log2] eqn:Hd; [cbn; discriminate|].
      destruct (fetch_districts_failure upstream _ _ _ _ _ Hd) as (m & ->).
      cbn. intros H; inversion H; subst. do 2 eexists.
      split; [reflexivity|]. split; [now right|]. discriminate.
  - destruct (name_by_id_inv upstream _ _ _ _ _ Hname)
      as [(states_resp & Hget & Hres)|(m & Hm)]; [|discriminate].
    inversion Hres as [Hscan].
    cbn. intros H; inversion H; subst. do 2 eexists.
    split; [reflexivity|]. split; [now left|]. intros _.
    exists states_resp. split; [exact Hget|]. now rewrite <- Hscan.
  - destruct (name_by_id_inv upstream _ _ _ _ _ Hname)
      as [(states_resp & Hget & Hres)|(m & Hm)]; [discriminate|].
    inversion Hm; subst x.
    cbn. intros H; inversion H; subst. do 2 eexists.
    split; [reflexivity|]. split; [now right|]. discriminate.
Qed.

End CommissionListing.

(** ** How the three upstream operations compose *)

Lemma calls_in_app {W : Wire} (a b : list Event) :
  calls_in (a ++ b) = (calls_in a + calls_in b)%nat.
Proof.
  unfold calls_in. now rewrite filter_app, length_app.
Qed.

Section SearchTrace.

Context {W : Wire}.
Variable upstream : Upstream.

Lemma make_request_trace (req : Request) (log : list Event) :
  exists n,
    (1 <= n <= 3)%nat
    /\ snd (_make_request upstream jagriti_client req log)
       = (log ++ backoff_trace (call_event req) 0 n)%list.
Proof.
  destruct (make_request_loop_schedule upstream jagriti_client req 3 0%nat log)
    as (n & Hn & Hpos & Htr); [reflexivity|].
  exists n. split; [lia|exact Htr].
Qed.

Lemma find_state_log (name : string) (log : list Event) :
  snd (find_state_commission_id upstream jagriti_client name log)
  = snd (_make_request upstream jagriti_client
           (mkReq "GET" Settings.ENDPOINT_states_commissions None None) log).
Proof.
  unfold find_state_commission_id, get_states_and_commissions, try_except, bind.
  destruct (_make_request upstream jagriti_client _ log) as [[j|e] l]; [|reflexivity].
  unfold construct. now destruct (parse_states j).
Qed.

Lemma find_district_log (sid : Z) (name : string) (log : list Event) :
  snd (find_district_commission_id upstream jagriti_client sid name log)
  = snd (_make_request upstream jagriti_client
           (mkReq "GET" Settings.ENDPOINT_district_commissions None (Some sid)) log).
Proof.
  unfold find_district_commission_id, get_district_commissions, try_except, bind.
  destruct (_make_request upstream jagriti_client _ log) as [[j|e] l]; [|reflexivity].
  unfold construct. now destruct (parse_districts j).
Qed.

Lemma search_cases_body_trace (request : CaseSearchRequest) (search_type : Z)
    (log : list Event) :
  exists n1 n2 n3 sid payload,
    (1 <= n1 <= 3)%nat /\ (n2 <= 3)%nat /\ (n3 <= 3)%nat
    /\ (n2 = 0 -> n3 = 0)%nat
    /\ (forall result,
          fst (search_cases_body upstream request search_type log) = Return result ->
          (1 <= n2 /\ 1 <= n3)%nat)
    /\ snd (search_cases_body upstream request search_type log)
       = (log
          ++ backoff_trace (EvGet Settings.ENDPOINT_states_commissions None) 0 n1
          ++ backoff_trace (EvGet Settings.ENDPOINT_district_commissions (Some sid)) 0 n2
          ++ backoff_trace (EvPost Settings.ENDPOINT_case_search (Some payload)) 0 n3)%list.
Proof.
  destruct (make_request_trace
              (mkReq "GET" Settings.ENDPOINT_states_commissions None None) log)
    as (n1 & Hn1 & Ht1).
  rewrite <- (find_state_log (state request)) in Ht1.
  change (call_event (mkReq "GET" Settings.ENDPOINT_states_commissions None None))
    with (EvGet Settings.ENDPOINT_states_commissions None) in Ht1.
  set (dummy := jagriti_request_of request search_type 0 "" "").
  destruct (search_cases_body upstream request search_type log) as [res l] eqn:Hbody.
  cbn [fst snd].
  unfold search_cases_body in Hbody. unfold bind at 1 in Hbody.
  destruct (find_state_commission_id upstream jagriti_client (state request) log)
    as [[[sid|]|e] log1] eqn:Hs; cbn [snd] in Ht1.
  2,3: inversion Hbody; subst res l;
       exists n1, 0%nat, 0%nat, 0, dummy;
       (split; [exact Hn1|]); (split; [lia|]); (split; [lia|]); (split; [lia|]);
       (split; [discriminate|]); cbn [backoff_trace]; rewrite !app_nil_r; exact Ht1.
  destruct (negb (id_truthy (Some sid))).
  { inversion Hbody; subst res l.
    exists n1, 0%nat, 0%nat, 0, dummy.
    split; [exact Hn1|]. split; [lia|]. split; [lia|]. split; [lia|].
    split; [discriminate|]. cbn [backoff_trace]. rewrite !app_nil_r. exact Ht1. }
  destruct (make_request_trace
              (mkReq "GET" Settings.ENDPOINT_district_commissions None (Some sid)) log1)
    as (n2 & Hn2 & Ht2).
  rewrite <- (find_district_log sid (commission request)) in Ht2.
  change (call_event (mkReq "GET" Settings.ENDPOINT_district_commissions None (Some sid)))
    with (EvGet Settings.ENDPOINT_district_commissions (Some sid)) in Ht2.
  unfold bind at 1 in Hbody.
  destruct (find_district_commission_id upstream jagriti_client sid
              (commission request) log1) as [[[did|]|e] log2] eqn:Hd;
    cbn [snd] in Ht2.
  2,3: inversion Hbody; subst res l;
       exists n1, n2, 0%nat, sid, dummy;
       (split; [exact Hn1|]); (split; [lia|]); (split; [lia|]); (split; [lia|]);
       (split; [discriminate|]); cbn [backoff_trace];
       rewrite Ht2, Ht1, app_nil_r; now rewrite <- !app_assoc.
  destruct (negb (id_truthy (Some did))).
  { inversion Hbody; subst res l.
    exists n1, n2, 0%nat, sid, dummy.
    split; [exact Hn1|]. split; [lia|]. split; [lia|]. split; [lia|].
    split; [discriminate|]. cbn [backoff_trace].
    rewrite Ht2, Ht1, app_nil_r. now rewrite <- !app_assoc. }
  cbv zeta in Hbody.
  set (payload := jagriti_request_of request search_type did _ _) in Hbody.
  destruct (make_request_trace
              (mkReq "POST" Settings.ENDPOINT_case_search (Some payload) None) log2)
    as (n3 & Hn3 & Ht3).
  rewrite <- (search_cases_log upstream jagriti_client payload log2) in Ht3.
  change (call_event (mkReq "POST" Settings.ENDPOINT_case_search (Some payload) None))
    with (EvPost Settings.ENDPOINT_case_search (Some payload)) in Ht3.
  exists n1, n2, n3, sid, payload.
  split; [exact Hn1|]. split; [lia|]. split; [lia|]. split; [lia|].
  split; [intros; lia|].
  unfold bind in Hbody.
  destruct (search_cases upstream jagriti_client payload log2) as [[resp|e] log3];
    cbn [snd] in Ht3; inversion Hbody; subst res l;
    rewrite Ht3, Ht2, Ht1; now rewrite <- !app_assoc.
Qed.

(** X12.  The network calls of one search.  Whatever the upstream does,
    [search_cases_by_type] adds to the log the retry schedule of the state
    directory fetch (one to three attempts), then possibly that of the
    district directory fetch for one state identifier, then possibly that of
    the case-search post, in this order and nothing else; the search is
    posted only after a district fetch; a successful search has made all
    three; and the number of calls added never exceeds nine. *)
Theorem search_trace_shape (request : CaseSearchRequest) (search_type : Z)
    (log : list Event) :
  exists n1 n2 n3 sid payload,
    (1 <= n1 <= 3)%nat /\ (n2 <= 3)%nat /\ (n3 <= 3)%nat
    /\ (n2 = 0 -> n3 = 0)%nat
    /\ (forall result,
          fst (search_cases_by_type upstream request search_type log) = Return result ->
          (1 <= n2 /\ 1 <= n3)%nat)
    /\ snd (search_cases_by_type upstream request search_type log)
       = (log
          ++ backoff_trace (EvGet Settings.ENDPOINT_states_commissions None) 0 n1
          ++ backoff_trace (EvGet Settings.ENDPOINT_district_commissions (Some sid)) 0 n2
          ++ backoff_trace (EvPost Settings.ENDPOINT_case_search (Some payload)) 0 n3)%list
    /\ calls_in (snd (search_cases_by_type upstream request search_type log))
       = (calls_in log + (n1 + n2 + n3))%nat.
Proof.
  destruct (search_cases_body_trace request search_type log)
    as (n1 & n2 & n3 & sid & payload & Hn1 & Hn2 & Hn3 & H0 & Hok & Htr).
  exists n1, n2, n3, sid, payload.
  assert (Hsnd : snd (search_cases_by_type upstream request search_type log)
                 = snd (search_cases_body upstream request search_type log)).
  { unfold search_cases_by_type, try_except.
    destruct (search_cases_body upstream request search_type log) as [[r|e] l];
      [reflexivity|now destruct e]. }
  assert (Hfst : forall result,
            fst (search_cases_by_type upstream request search_type log) = Return result ->
            fst (search_cases_body upstream request search_type log) = Return result).
  { unfold search_cases_by_type, try_except.
    destruct (search_cases_body upstream request search_type log) as [[r|e] l];
      [trivial|destruct e; cbn; discriminate]. }
  split; [exact Hn1|]. split; [exact Hn2|]. split; [exact Hn3|]. split; [exact H0|].
  split; [intros result Hr; apply (Hok result), Hfst, Hr|].
  rewrite Hsnd, Htr. split; [reflexivity|].
  rewrite !calls_in_app, !calls_in_backoff_trace by reflexivity. lia.
Qed.

End SearchTrace.

(** ** Validation as a normal form *)






Lemma upper_empty_iff (s : string) : PyStr.upper s = "" <-> s = "".
Proof.
  destruct s; split; intros H; try reflexivity; discriminate.
Qed.

(** X14.  The state is case-insensitive from end to end: two request bodies
    that differ only in the letter case of [state] are validated to the same
    request, so they get the same answer (criteria echo included) and cause
    the same upstream calls. *)
Theorem serve_state_case_insensitive {W : Wire} (upstream : Upstream)
    (k : SearchKind) (s1 s2 c v : string) (f t : option string) (log : list Event) :
  PyStr.upper s1 = PyStr.upper s2 ->
  Requests.validate (Requests.mkRaw s1 c v f t)
  = Requests.validate (Requests.mkRaw s2 c v f t)
  /\ serve upstream k (Requests.mkRaw s1 c v f t) log
     = serve upstream k (Requests.mkRaw s2 c v f t) log.
Proof.
  intros Hup.
  assert (Hv : Requests.validate (Requests.mkRaw s1 c v f t)
               = Requests.validate (Requests.mkRaw s2 c v f t)).
  { unfold Requests.validate. cbv zeta.
    cbn [Requests.raw_state Requests.raw_commission Requests.raw_search_value
         Requests.raw_from_date Requests.raw_to_date].
    unfold Requests.min_length_1 at 1 4. 
    destruct s1 as [|a1 s1], s2 as [|a2 s2]; try discriminate; [reflexivity|].
    cbn [PyStr.truthy Requests.errors_of].
    unfold Requests.state_must_be_uppercase. rewrite Hup. reflexivity. }
  split; [exact Hv|]. unfold serve. now rewrite Hv.
Qed.

(** * The further properties on concrete upstream snapshots *)

Module MoreScenarioFacts.

Import Scenario MoreScenarios.

#[local] Existing Instance wire.

(** one timeout, then the directory: two calls and one sleep of 1 *)
Lemma make_request_recovers_sample :
  _make_request flaky jagriti_client get_states_request []
  = (Return (Some (JDirectory (mkDirectoryResponse states "ok" "false" 200))),
     [get_states_event; EvSleep 1; get_states_event])
  /\ calls_in (backoff_trace (call_event get_states_request) 0 2) = 2%nat
  /\ sleeps_in (backoff_trace (call_event get_states_request) 0 2) = [1].
Proof.
  apply (make_request_recovers flaky jagriti_client get_states_request [] 1
           states_page_ok states_json).
  - apply Nat.ltb_lt. reflexivity.
  - intros i Hi. assert (i = 0)%nat as -> by lia. reflexivity.
  - reflexivity.
  - reflexivity.
  - reflexivity.
Defined.

(** a 404 page on the first of three attempts ends the loop by raising *)
Lemma only_transport_failures_retried_sample :
  retryable (html_404 [get_states_event]) = false
  /\ exists e,
       make_request_loop html_404 jagriti_client get_states_request [0; 1; 2]%nat []
       = (Raise e, [get_states_event]).
Proof.
  split; [reflexivity|].
  destruct (only_transport_failures_retried html_404 jagriti_client get_states_request
              0%nat [1; 2]%nat [] eq_refl)
    as (res & Hrun & _ & _ & Hraise & _).
  destruct (Hraise (mkHttpResponse 404 "<html>Not Found</html>"
                      (inl "Expecting value: line 1 column 1 (char 0)"))
              eq_refl eq_refl) as (e & ->).
  exists e. exact Hrun.
Defined.

(** the listing of the two main states is the stable sort of what was
    collected *)
Lemma sort_by_is_the_stable_sort_sample :
  [ StateCommission.mk 11050000 "ASSAM" true false;
    StateCommission.mk 11290000 "KARNATAKA" true false ]
  = sort_by StateCommission.name (Utilities.collect_states mixed_states).
Proof.
  apply (proj2 (proj2 (proj2
           (sort_by_is_the_stable_sort StateCommission.name
              (Utilities.collect_states mixed_states))))).
  - repeat constructor.
  - intros k. unfold with_key.
    change (Utilities.collect_states mixed_states)
      with [ StateCommission.mk 11290000 "KARNATAKA" true false;
             StateCommission.mk 11050000 "ASSAM" true false ].
    cbn [filter StateCommission.name].
    destruct (String.eqb_spec "ASSAM" k) as [Ha|Ha];
      destruct (String.eqb_spec "KARNATAKA" k) as [Hk|Hk];
      try reflexivity.
    subst k. discriminate.
Defined.

(** the reverse lookup finds the inactive state *)
Lemma state_name_by_id_first_match_sample :
  exists r,
    get_state_name_by_id snapshot_mixed jagriti_client 11990000 []
    = (Return r, [get_states_event])
    /\ ((exists l1 e l2,
            dir_data mixed_states_response = (l1 ++ e :: l2)%list
            /\ commissionId e = 11990000
            /\ (forall e', In e' l1 -> commissionId e' <> 11990000)
            /\ r = Some (commissionNameEn e))
        \/ ((forall e, In e (dir_data mixed_states_response) ->
                       commissionId e <> 11990000) /\ r = None)).
Proof.
  apply (state_name_by_id_first_match snapshot_mixed jagriti_client 11990000 []
           [get_states_event] mixed_states_response).
  reflexivity.
Defined.

(** asked in lower case, the round trip returns the directory's spelling *)
Lemma resolve_then_name_round_trip_sample :
  get_state_name_by_id snapshot jagriti_client 11290000 [get_states_event]
  = (Return (Some "KARNATAKA"), [get_states_event; get_states_event])
  /\ str_upper "KARNATAKA" = str_upper "karnataka".
Proof.
  destruct (resolve_then_name_round_trip snapshot jagriti_client "karnataka" 11290000
              [] [get_states_event] [get_states_event; get_states_event]
              (mkDirectoryResponse states "ok" "false" 200)
              (mkDirectoryResponse states "ok" "false" 200)
              eq_refl eq_refl eq_refl
              ltac:(cbn; repeat constructor; cbn; intuition discriminate)
              eq_refl) as (n & Hget & Hup).
  vm_compute in Hget. inversion Hget; subst n.
  split; [reflexivity|exact Hup].
Defined.

Lemma states_listing_sample :
  Utilities.get_states snapshot_mixed [] = (Return mixed_states_listing, [get_states_event])
  /\ sorted_by StateCommission.name (StatesResponse.states mixed_states_listing)
  /\ StatesResponse.total_count mixed_states_listing
     = Z.of_nat (List.length (StatesResponse.states mixed_states_listing)).
Proof.
  split; [reflexivity|].
  destruct (states_listing snapshot_mixed [] [get_states_event] mixed_states_listing
              eq_refl) as (resp & _ & _ & _ & Hsorted & _ & Hcount).
  split; [exact Hsorted|exact Hcount].
Defined.

(** an upstream 404 on the state directory leaves the endpoint as a 500 *)
Lemma states_listing_failure_is_500_sample :
  Utilities.get_states json_404 []
  = (Raise (HTTPException 500
              ("Failed to fetch states from external API: "
               ++ "Failed to fetch states and commissions: HTTP 404 error: "
               ++ json_404_text)),
     [get_states_event])
  /\ exists detail,
       HTTPException 500
         ("Failed to fetch states from external API: "
          ++ "Failed to fetch states and commissions: HTTP 404 error: "
          ++ json_404_text)
       = HTTPException 500 detail.
Proof.
  split; [reflexivity|].
  apply (states_listing_failure_is_500 json_404 [] [get_states_event]).
  reflexivity.
Defined.

Lemma commissions_listing_sample :
  Utilities.get_district_commissions snapshot_mixed 11990000 []
  = (Return mixed_commissions_listing,
     [get_states_event; get_districts_event 11990000])
  /\ sorted_by DistrictCommission.name
       (DistrictCommissionsResponse.commissions mixed_commissions_listing)
  /\ List.length (DistrictCommissionsResponse.commissions mixed_commissions_listing)
     = 2%nat.
Proof.
  split; [reflexivity|].
  destruct (commissions_listing snapshot_mixed 11990000 []
              [get_states_event; get_districts_event 11990000]
              mixed_commissions_listing eq_refl)
    as (sr & l1 & resp & _ & _ & _ & _ & _ & _ & _ & Hsorted & _).
  split; [exact Hsorted|reflexivity].
Defined.

Lemma unknown_state_is_404_sample :
  Utilities.get_district_commissions snapshot_mixed 42 []
  = (Raise (HTTPException 404 "State with commission ID 42 not found"),
     [get_states_event]).
Proof.
  apply (unknown_state_is_404 snapshot_mixed 42 [] [get_states_event]
           mixed_states_response).
  - reflexivity.
  - left. reflexivity.
Defined.

Lemma commissions_listing_failure_sample :
  Utilities.get_district_commissions snapshot_mixed 42 []
  = (Raise (HTTPException 404 "State with commission ID 42 not found"),
     [get_states_event])
  /\ exists code detail,
    HTTPException 404 "State with commission ID 42 not found"
    = HTTPException code detail
    /\ (code = 404 \/ code = 500)
    /\ (code = 404 ->
        exists states_resp,
          get_states_and_commissions snapshot_mixed jagriti_client []
            = (Return states_resp, [get_states_event])
          /\ PyStr.opt_truthy (scan_name_by_id 42 (dir_data states_resp)) = false).
Proof.
  split; [reflexivity|].
  apply (commissions_listing_failure snapshot_mixed 42 [] [get_states_event]).
  reflexivity.
Defined.


Lemma serve_state_case_insensitive_sample :
  Requests.validate
    (Requests.mkRaw "karnataka" "Bangalore Urban" "REDDY" None None)
  = Requests.validate
      (Requests.mkRaw "KarnaTaka" "Bangalore Urban" "REDDY" None None)
  /\ serve snapshot Judge
       (Requests.mkRaw "karnataka" "Bangalore Urban" "REDDY" None None) []
     = serve snapshot Judge
         (Requests.mkRaw "KarnaTaka" "Bangalore Urban" "REDDY" None None) [].
Proof.
  apply (serve_state_case_insensitive snapshot Judge "karnataka" "KarnaTaka").
  reflexivity.
Defined.

(** a 404 with a JSON body: the exception carries the status and the body *)
Lemma http_error_with_decodable_body_sample :
  exists body,
    make_request_loop json_404 jagriti_client get_states_request [0; 1; 2]%nat []
    = (Raise (JagritiAPIException
                ("HTTP " ++ PyStr.of_Z 404 ++ " error: " ++ json_404_text)
                (Some 404) body),
       [get_states_event])
    /\ (body = None <-> json_404_text = "").
Proof.
  apply (http_error_with_decodable_body json_404 jagriti_client get_states_request
           0%nat [1; 2]%nat [] states_page_404).
  - reflexivity.
  - reflexivity.
  - right. exists (JErrorObject "Not Found"). reflexivity.
Defined.

Lemma state_not_found_is_404_sample :
  endpoint snapshot Respondent
    (mkRequest "ATLANTIS" "Bangalore Urban" "REDDY" None None) []
  = (Raise (HTTPException 404 "Case search failed: State 'ATLANTIS' not found"),
     [get_states_event]).
Proof.
  apply (state_not_found_is_404 snapshot Respondent
           (mkRequest "ATLANTIS" "Bangalore Urban" "REDDY" None None) []
           [get_states_event]).
  reflexivity.
Defined.

Lemma commission_not_found_is_404_sample :
  endpoint snapshot Respondent
    (mkRequest "KARNATAKA" "Mysore" "REDDY" None None) []
  = (Raise (HTTPException 404
              "Case search failed: Commission 'Mysore' not found in state 'KARNATAKA'"),
     [get_states_event; get_districts_event 11290000]).
Proof.
  apply (commission_not_found_is_404 snapshot Respondent
           (mkRequest "KARNATAKA" "Mysore" "REDDY" None None) []
           [get_states_event] [get_states_event; get_districts_event 11290000]
           11290000).
  - reflexivity.
  - discriminate.
  - reflexivity.
Defined.

(** three timeouts on the state directory leave the endpoint as a 500 *)
Lemma endpoint_failures_are_http_sample :
  exists code detail,
    fst (endpoint always_timeout IndustryType reddy_request [])
    = Raise (HTTPException code detail)
    /\ (code = 404 \/ code = 500).
Proof.
  destruct (endpoint_failures_are_http always_timeout IndustryType reddy_request []
              (snd (endpoint always_timeout IndustryType reddy_request []))
              (HTTPException 500
                 ("External API error: Failed to find state commission ID: "
                  ++ "Failed to fetch states and commissions: "
                  ++ "Request timed out after 3 attempts")) eq_refl)
    as (code & detail & He & Hc).
  exists code, detail. split; [|exact Hc]. now rewrite <- He.
Defined.

Lemma validation_precedes_network_sample :
  serve snapshot CaseNumber (raw_reddy (Some "01-05-2025") None) []
  = (Raise (RequestValidationError ["Date must be in YYYY-MM-DD format"]), []).
Proof.
  apply (validation_precedes_network snapshot CaseNumber
           (raw_reddy (Some "01-05-2025") None)
           ["Date must be in YYYY-MM-DD format"] []).
  reflexivity.
Defined.

Lemma to_before_from_rejected_sample :
  exists errors,
    Requests.validate (raw_reddy (Some "2025-05-01") (Some "2025-01-01")) = inl errors.
Proof.
  apply (to_before_from_rejected (raw_reddy (Some "2025-05-01") (Some "2025-01-01"))
           "2025-05-01" "2025-01-01" (2025, 5, 1) (2025, 1, 1)); reflexivity.
Defined.

(** the thirtieth of February is refused *)
Lemma unparsable_date_rejected_sample :
  exists errors,
    Requests.validate (raw_reddy None (Some "2025-02-30")) = inl errors.
Proof.
  apply (unparsable_date_rejected (raw_reddy None (Some "2025-02-30")) "2025-02-30").
  - reflexivity.
  - reflexivity.
  - right. reflexivity.
Defined.


End MoreScenarioFacts.
